(** * Authentication state machine of the appointments web client

    A shallow embedding of the client-side authentication layer:
    - [Auth]        the facade over the hosted gateway         (lib/auth.ts)
    - [AuthStore]   the store-based state machine              (lib/auth-store.ts)
    - [AuthContext] the context-based bootstrap                (lib/auth-context.tsx)
    - [LoginPage]   the login view's own session pre-check     (app/(auth)/login/page.tsx)
    - [Guard]       the two route guards                       (components/.../ProtectedRoute)
    - [AuthBusiness], [StoreHooks], [ContextActions], [LoginForm],
      [GuardView], [HomePage]: the tenant operations of the facade, the
      store's hooks, the provider's other actions, the login form, what
      the guards render, and the landing page

    Asynchronous functions are written as terms of a small free monad
    [Prog]: a program either returns, throws, reads or writes the state it
    owns, performs a synchronous call, awaits an external request, or
    races a program against a timer.  [run] executes a program against an
    environment that answers every request and keeps the list of what
    happened; [tstep] and [Interleaving.step] let calls in flight
    interleave, for the invariant of the store. *)

From Stdlib Require Import String Ascii List Bool NArith Arith Lia.
From Stdlib Require Import Relations.Relation_Operators.
Import ListNotations.
Open Scope string_scope.

Set Implicit Arguments.

(* ------------------------------------------------------------------ *)
(** ** JavaScript values *)

(** Truthiness of a string: only the empty string is falsy. *)
Definition truthy (s : string) : bool :=
  match s with EmptyString => false | String _ _ => true end.

(** [x || undefined], [x || null] and [if (x)] on [string | null]. *)
Definition truthy_opt (o : option string) : option string :=
  match o with
  | Some s => if truthy s then Some s else None
  | None => None
  end.

(** [a || b] where [a : string | null | undefined] and [b : string]. *)
Definition or_default (o : option string) (d : string) : string :=
  match truthy_opt o with Some s => s | None => d end.

(** What a [catch (err)] clause receives: an [Error] with its message,
    or any other thrown value ([err instanceof Error] is false). *)
Inductive Exn : Type :=
| JsError (msg : string)
| JsOther.

(** [err instanceof Error ? err.message : fallback] *)
Definition message_or (e : Exn) (fallback : string) : string :=
  match e with JsError m => m | JsOther => fallback end.

(* ------------------------------------------------------------------ *)
(** ** Data model (lib/auth.ts) *)

Record AuthUser : Type := mkAuthUser {
  id : string;
  email : string;
  name : option string;
  user_businessId : option string
}.

Record AuthError : Type := mkAuthError {
  message : string;
  err_status : option N
}.

Record AuthResult (D : Type) : Type := mkAuthResult {
  data : D;
  error : option AuthError
}.

(** The gateway's user and session objects, as far as the client reads them. *)
Record Metadata : Type := mkMetadata {
  md_name : option string;
  business_id : option string
}.

Record User : Type := mkUser {
  sb_id : string;
  sb_email : option string;
  user_metadata : option Metadata
}.

Record Session : Type := mkSession { session_user : User }.

Record AuthData : Type := mkAuthData {
  d_user : option User;
  d_session : option Session
}.

(** [{ data, error }] as the gateway returns it. *)
Record GwResult (D : Type) : Type := mkGw {
  gw_data : D;
  gw_error : option AuthError
}.

Inductive OtpType : Type := otp_signup | otp_recovery.

Record LogoutConfig : Type := mkLogoutConfig {
  clearBusinessContext_flag : option bool;
  clearLocalStorage : option bool;
  redirectToLogin : option bool;
  redirectUrl : option string
}.

(** Result of [enhancedLogout] (lib/logout-session-management). *)
Record LogoutResult : Type := mkLogoutResult {
  lr_success : bool;
  lr_error : option AuthError;
  cleanupResults : option (list (string * bool))
}.

Record EnhancedResult : Type := mkEnhanced {
  e_error : option AuthError;
  e_cleanupResults : option (list (string * bool))
}.

(** Result of [businessContext.setBusinessContext]. *)
Record BcResult : Type := mkBcResult {
  bc_success : bool;
  bc_error : option string
}.

Record BcOptions : Type := mkBcOptions {
  autoSelect : option bool;
  skipCache : option bool;
  userId : option string
}.

(* ------------------------------------------------------------------ *)
(** ** Requests to the outside world *)

(** Requests that return a promise: the hosted gateway ([supabase.auth]),
    the business-context resolver and the logout routine. *)
Inductive Call : Type -> Type :=
| sb_signUp (email password : string) : Call (GwResult AuthData)
| sb_signInWithPassword (email password : string) : Call (GwResult AuthData)
| sb_signOut : Call (GwResult unit)
| sb_getSession : Call (GwResult (option Session))
| sb_getUser : Call (GwResult (option User))
| sb_resetPasswordForEmail (email : string) : Call (GwResult (option unit))
| sb_updateUser_password (password : string) : Call (GwResult (option User))
| sb_updateUser_data (business_id : string) : Call (GwResult (option User))
| sb_verifyOtp (token_hash : string) (type : OtpType) : Call (GwResult AuthData)
| sb_resend (type : OtpType) (email : string)
    : Call (GwResult (option (option string)))
| enhancedLogout (config : option LogoutConfig) : Call LogoutResult
| bc_clearBusinessContext : Call unit
| bc_setBusinessContext (businessId : string) : Call BcResult
| bc_getCurrentBusinessIdAsync (opts : BcOptions) : Call (option string).

(** Synchronous calls. *)
Inductive SyncCall : Type -> Type :=
| window_defined : SyncCall bool
| document_cookie : SyncCall string
| localStorage_getItem (key : string) : SyncCall (option string)
| bc_getCurrentBusinessId : SyncCall (option string)
| sb_onAuthStateChange : SyncCall unit
| navigate (url : string) : SyncCall unit.

(** How a call ends. *)
Inductive Reply (X : Type) : Type :=
| Resolves (x : X)
| Rejects (e : Exn).
Arguments Rejects {X} e.

(** How a promise settles: after some milliseconds, or never. *)
Inductive Settle (X : Type) : Type :=
| After (ms : N) (r : Reply X)
| Never.
Arguments Never {X}.

(* ------------------------------------------------------------------ *)
(** ** Programs *)

(** [S] is the state the program owns (the store's [AuthState], the
    context's React state, the login view's flags). *)
Inductive Prog (S : Type) : Type -> Type :=
| Ret : forall A, A -> Prog S A
| Throw : forall A, Exn -> Prog S A
| Get : forall A, (S -> Prog S A) -> Prog S A
| Put : forall A, S -> Prog S A -> Prog S A
| Sync : forall A X, SyncCall X -> (Reply X -> Prog S A) -> Prog S A
| Await : forall A X, Call X -> (Reply X -> Prog S A) -> Prog S A
| Race : forall A X, Prog S X -> N -> Exn -> (Reply X -> Prog S A) -> Prog S A.

Arguments Ret {S A} _.
Arguments Throw {S A} _.
Arguments Get {S A} _.
Arguments Put {S A} _ _.
Arguments Sync {S A X} _ _.
Arguments Await {S A X} _ _.
Arguments Race {S A X} _ _ _ _.

Section Combinators.
Context {S : Type}.

Fixpoint bind {A B} (p : Prog S A) : (A -> Prog S B) -> Prog S B :=
    match p in Prog _ A return (A -> Prog S B) -> Prog S B with
    | Ret a => fun f => f a
    | Throw e => fun _ => Throw e
    | Get k => fun f => Get (fun s => bind (k s) f)
    | Put s k => fun f => Put s (bind k f)
    | Sync c k => fun f => Sync c (fun r => bind (k r) f)
    | Await c k => fun f => Await c (fun r => bind (k r) f)
    | Race q ms e k => fun f => Race q ms e (fun r => bind (k r) f)
    end.

  (** [try { p } catch (err) { h err }] *)
Fixpoint try_catch {A} (p : Prog S A) : (Exn -> Prog S A) -> Prog S A :=
    match p in Prog _ A return (Exn -> Prog S A) -> Prog S A with
    | Ret a => fun _ => Ret a
    | Throw e => fun h => h e
    | Get k => fun h => Get (fun s => try_catch (k s) h)
    | Put s k => fun h => Put s (try_catch k h)
    | Sync c k => fun h => Sync c (fun r => try_catch (k r) h)
    | Await c k => fun h => Await c (fun r => try_catch (k r) h)
    | Race q ms e k => fun h => Race q ms e (fun r => try_catch (k r) h)
    end.

  (** [try { p } finally { f }]: [f] runs on both exits; an exception of
      [f] replaces the outcome of [p]. *)
Fixpoint try_finally {A} (p : Prog S A) : Prog S unit -> Prog S A :=
    match p in Prog _ A return Prog S unit -> Prog S A with
    | Ret a => fun f => bind f (fun _ => Ret a)
    | Throw e => fun f => bind f (fun _ => Throw e)
    | Get k => fun f => Get (fun s => try_finally (k s) f)
    | Put s k => fun f => Put s (try_finally k f)
    | Sync c k => fun f => Sync c (fun r => try_finally (k r) f)
    | Await c k => fun f => Await c (fun r => try_finally (k r) f)
    | Race q ms e k => fun f => Race q ms e (fun r => try_finally (k r) f)
    end.

Definition of_reply {A} (r : Reply A) : Prog S A :=
    match r with Resolves x => Ret x | Rejects e => Throw e end.

  (** [await c] *)
Definition await {X} (c : Call X) : Prog S X := Await c of_reply.

  (** a synchronous call, which may throw *)
Definition call {X} (c : SyncCall X) : Prog S X := Sync c of_reply.

Definition get : Prog S S := Get (fun s => Ret s).
Definition set (s : S) : Prog S unit := Put s (Ret tt).

  (** [await Promise.race([p, new Promise((_, reject) =>
        setTimeout(() => reject(new Error(msg)), ms))])] *)
Definition race {X} (p : Prog S X) (ms : N) (msg : string) : Prog S X :=
    Race p ms (JsError msg) of_reply.
End Combinators.

Declare Scope prog_scope.
Delimit Scope prog_scope with prog.
Notation "x <- p ;; q" := (bind p (fun x => q))
  (at level 61, p at next level, right associativity) : prog_scope.
Notation "p ;; q" := (bind p (fun _ => q))
  (at level 61, right associativity) : prog_scope.
Open Scope prog_scope.

(* ------------------------------------------------------------------ *)
(** ** The world a program runs in *)

(** What the browser holds.  [document.cookie] is read as a sequence of
    bytes; [localStorage] is a list of key/value items. *)
Record Browser : Type := mkBrowser {
  has_window : bool;
  cookie : string;
  localStorage : list (string * string)
}.

Fixpoint getItem (items : list (string * string)) (key : string) : option string :=
  match items with
  | [] => None
  | (k, v) :: rest => if String.eqb k key then Some v else getItem rest key
  end.

(** What a run leaves behind, in order: each request with the way it
    settled, each synchronous call with its outcome, each write. *)
Inductive Event (S : Type) : Type :=
| EvCall : forall X, Call X -> Settle X -> Event S
| EvSync : forall X, SyncCall X -> Reply X -> Event S
| EvPut : S -> Event S.
Arguments EvCall {S X} _ _.
Arguments EvSync {S X} _ _.
Arguments EvPut {S} _.

Record World (S : Type) : Type := mkWorld {
  store : S;
  (** the business-context module's cached tenant id *)
  cachedBusinessId : option string;
  (** listeners registered on the gateway's change-event stream *)
  subscriptions : nat;
  browser : Browser;
  (** milliseconds spent waiting *)
  clock : N;
  (** interactions with the environment so far *)
  ticks : nat
}.

(** The environment answers the [n]-th interaction.  A synchronous call
    returns normally when [sync_throws] is [None]. *)
Record Env : Type := mkEnv {
  answer : forall X, Call X -> nat -> Settle X;
  sync_throws : forall X, SyncCall X -> nat -> option Exn
}.

Inductive Completion (A : Type) : Type :=
| Done (a : A)
| Raised (e : Exn)
| Pending.
Arguments Raised {A} e.
Arguments Pending {A}.

Section Effects.
Context {S : Type}.

Definition put_store (s : S) (w : World S) : World S :=
  mkWorld s (cachedBusinessId w) (subscriptions w) (browser w)
          (clock w) (ticks w).

Definition put_cache (c : option string) (w : World S) : World S :=
  mkWorld (store w) c (subscriptions w) (browser w) (clock w) (ticks w).

Definition subscribe (w : World S) : World S :=
  mkWorld (store w) (cachedBusinessId w) (Datatypes.S (subscriptions w))
          (browser w) (clock w) (ticks w).

Definition put_clock (t : N) (w : World S) : World S :=
  mkWorld (store w) (cachedBusinessId w) (subscriptions w) (browser w)
          t (ticks w).

Definition tick (w : World S) : World S :=
  mkWorld (store w) (cachedBusinessId w) (subscriptions w) (browser w)
          (clock w) (Datatypes.S (ticks w)).

(** [typeof window] and navigation cannot throw; reading cookies or
    storage, the cached tenant lookup and subscribing can. *)
Definition may_throw {X} (c : SyncCall X) : bool :=
  match c with
  | window_defined => false
  | navigate _ => false
  | _ => true
  end.

(** Modelled from the spec: [getCurrentBusinessId] of the absent
    lib/business-context is a cache-only lookup; it returns the cached
    association.  The other values come from the browser. *)
Definition sync_value {X} (c : SyncCall X) (w : World S) : X :=
  match c in SyncCall X return X with
  | window_defined => has_window (browser w)
  | document_cookie => cookie (browser w)
  | localStorage_getItem key => getItem (localStorage (browser w)) key
  | bc_getCurrentBusinessId => cachedBusinessId w
  | sb_onAuthStateChange => tt
  | navigate _ => tt
  end.

Definition sync_effect {X} (c : SyncCall X) (r : Reply X) (w : World S)
  : World S :=
  match c, r with
  | sb_onAuthStateChange, Resolves _ => subscribe w
  | _, _ => w
  end.

(** Modelled from the spec: lib/business-context is not part of the
    sources.  [clearBusinessContext] clears the cached association and
    [setBusinessContext] stores it when it reports success; a call that
    rejects leaves the cache as it was. *)
Definition call_effect {X} (c : Call X) (r : Reply X) (w : World S)
  : World S :=
  match c in Call X return Reply X -> World S with
  | bc_clearBusinessContext => fun r =>
      match r with Resolves _ => put_cache None w | Rejects _ => w end
  | bc_setBusinessContext b => fun r =>
      match r with
      | Resolves res => if bc_success res then put_cache (Some b) w else w
      | Rejects _ => w
      end
  | _ => fun _ => w
  end r.
End Effects.

Section Run.
Context {S : Type}.
Variable env : Env.

Definition sync_reply {X} (c : SyncCall X) (w : World S) : Reply X :=
  if may_throw c then
    match sync_throws env c (ticks w) with
    | Some e => Rejects e
    | None => Resolves (sync_value c w)
    end
  else Resolves (sync_value c w).

Definition Outcome (A : Type) : Type :=
  (Completion A * World S * list (Event S))%type.

Definition emit {A} (e : Event S) (o : Outcome A) : Outcome A :=
  let '(c, w, evs) := o in (c, w, e :: evs).

Definition emit_all {A} (es : list (Event S)) (o : Outcome A) : Outcome A :=
  let '(c, w, evs) := o in (c, w, (es ++ evs)%list).

(** The timer wins a race when the program has not settled strictly
    before the deadline.  The raced programs of this code base issue one
    request and post-process its reply without touching the state, so the
    loser of a race leaves nothing behind but the request itself. *)
Fixpoint run {A} (p : Prog S A) : World S -> Outcome A :=
  match p in Prog _ A return World S -> Outcome A with
  | Ret a => fun w => (Done a, w, [])
  | Throw e => fun w => (Raised e, w, [])
  | Get k => fun w => run (k (store w)) w
  | Put s k => fun w => emit (EvPut s) (run k (put_store s w))
  | Sync c k => fun w =>
      let r := sync_reply c w in
      emit (EvSync c r) (run (k r) (tick (sync_effect c r w)))
  | Await c k => fun w =>
      match answer env c (ticks w) with
      | Never => (Pending, tick w, [EvCall c Never])
      | After ms r =>
          emit (EvCall c (After ms r))
               (run (k r) (tick (call_effect c r (put_clock (clock w + ms) w))))
      end
  | Race q ms timeout k => fun w =>
      let '(c, w', evs) := run q w in
      let in_time := (clock w' - clock w <? ms)%N in
      let expired := put_clock (clock w + ms) w' in
      emit_all evs
        match c with
        | Done x =>
            if in_time then run (k (Resolves x)) w'
            else run (k (Rejects timeout)) expired
        | Raised e =>
            if in_time then run (k (Rejects e)) w'
            else run (k (Rejects timeout)) expired
        | Pending => run (k (Rejects timeout)) expired
        end
  end.
End Run.

(* ------------------------------------------------------------------ *)
(** ** String helpers of the JavaScript runtime *)

(** [s.split(sep)] for a one-character separator. *)
Fixpoint split (sep : ascii) (s : string) : list string :=
  match s with
  | EmptyString => [EmptyString]
  | String c rest =>
      if Ascii.eqb c sep then EmptyString :: split sep rest
      else match split sep rest with
           | [] => [String c EmptyString]
           | h :: t => String c h :: t
           end
  end.

(** White space within ASCII: tab, line feed, vertical tab, form feed,
    carriage return and space. *)
Definition is_space (c : ascii) : bool :=
  let n := nat_of_ascii c in
  (Nat.leb 9 n && Nat.leb n 13) || Nat.eqb n 32.

Fixpoint trimStart (s : string) : string :=
  match s with
  | EmptyString => EmptyString
  | String c rest => if is_space c then trimStart rest else s
  end.

Fixpoint trimEnd (s : string) : string :=
  match s with
  | EmptyString => EmptyString
  | String c rest =>
      match trimEnd rest with
      | EmptyString => if is_space c then EmptyString else String c EmptyString
      | rest' => String c rest'
      end
  end.

Definition trim (s : string) : string := trimEnd (trimStart s).

Definition startsWith (s p : string) : bool := String.prefix p s.

Fixpoint includes (s sub : string) : bool :=
  String.prefix sub s ||
  match s with
  | EmptyString => false
  | String _ rest => includes rest sub
  end.

Definition is_some {A} (o : option A) : bool :=
  match o with Some _ => true | None => false end.

(* ------------------------------------------------------------------ *)
(** ** The facade: [auth] of lib/auth.ts *)

Module Auth.
Section WithState.
Context {S : Type}.

(** [{ message: error.message, status: error.status }] *)
Definition normalize (e : AuthError) : AuthError :=
  mkAuthError (message e) (err_status e).

(** [{ message: err instanceof Error ? err.message : fallback, status: 500 }] *)
Definition unexpected (err : Exn) (fallback : string) : AuthError :=
  mkAuthError (message_or err fallback) (Some 500%N).

Definition no_auth_data : AuthData := mkAuthData None None.

Definition signUp (email password : string) : Prog S (AuthResult AuthData) :=
  try_catch
    (r <- await (sb_signUp email password) ;;
     match gw_error r with
     | Some error => Ret (mkAuthResult no_auth_data (Some (normalize error)))
     | None => Ret (mkAuthResult (gw_data r) None)
     end)
    (fun err =>
       Ret (mkAuthResult no_auth_data (Some (unexpected err "Registration failed")))).

(** [data.session?.user?.user_metadata?.business_id] *)
Definition session_business_id (d : AuthData) : option string :=
  match d_session d with
  | Some s =>
      match user_metadata (session_user s) with
      | Some m => business_id m
      | None => None
      end
  | None => None
  end.

Definition signIn (email password : string) : Prog S (AuthResult AuthData) :=
  try_catch
    (r <- await (sb_signInWithPassword email password) ;;
     match gw_error r with
     | Some error => Ret (mkAuthResult no_auth_data (Some (normalize error)))
     | None =>
         match truthy_opt (session_business_id (gw_data r)) with
         | Some businessId =>
             (* a failed context is logged, the login stands *)
             _ <- await (bc_setBusinessContext businessId) ;; Ret tt
         | None => Ret tt
         end ;;
         Ret (mkAuthResult (gw_data r) None)
     end)
    (fun err =>
       Ret (mkAuthResult no_auth_data (Some (unexpected err "Login failed")))).

(** The sign-out request is raced against a 2000 ms timer; the inner
    [catch] receives whatever rejects the race. *)
Definition signOut : Prog S (option AuthError) :=
  try_catch
    (await bc_clearBusinessContext ;;
     raced <- try_catch
                (result <- race (await sb_signOut) 2000 "Supabase signOut timeout" ;;
                 Ret (inl result))
                (fun timeoutError => Ret (inr (@None AuthError))) ;;
     match raced with
     | inr early => Ret early
     | inl result =>
         match gw_error result with
         | Some error => Ret (Some (normalize error))
         | None => Ret None
         end
     end)
    (fun err => Ret (Some (unexpected err "Logout failed"))).

(** The dynamic import of the logout module and the call of its
    [enhancedLogout] are one request here. *)
Definition enhancedSignOut (config : option LogoutConfig) : Prog S EnhancedResult :=
  try_catch
    (result <- await (enhancedLogout config) ;;
     Ret (mkEnhanced
            (if lr_success result then None
             else match lr_error result with
                  | Some e => Some e
                  | None => Some (mkAuthError "Enhanced logout failed" (Some 500%N))
                  end)
            (cleanupResults result)))
    (fun err =>
       Ret (mkEnhanced (Some (unexpected err "Enhanced logout failed")) None)).

Definition isLikelyAuthenticated : Prog S bool :=
  w <- call window_defined ;;
  if negb w then Ret false
  else
    try_catch
      (c <- call document_cookie ;;
       let cookies := split ";" c in
       let hasAuthCookie :=
         existsb (fun cookie =>
                    startsWith (trim cookie) "sb-" && includes cookie "-auth-token")
                 cookies in
       item <- call (localStorage_getItem "supabase.auth.token") ;;
       let hasLocalStorage := is_some item in
       Ret (hasAuthCookie || hasLocalStorage))
      (fun error => Ret false).

Definition getSession : Prog S (AuthResult (option Session)) :=
  try_catch
    (r <- await sb_getSession ;;
     match gw_error r with
     | Some error => Ret (mkAuthResult None (Some (normalize error)))
     | None => Ret (mkAuthResult (gw_data r) None)
     end)
    (fun err =>
       Ret (mkAuthResult None (Some (unexpected err "Session retrieval failed")))).

Definition getUser : Prog S (AuthResult (option User)) :=
  try_catch
    (r <- await sb_getUser ;;
     match gw_error r with
     | Some error => Ret (mkAuthResult None (Some (normalize error)))
     | None => Ret (mkAuthResult (gw_data r) None)
     end)
    (fun err =>
       Ret (mkAuthResult None (Some (unexpected err "User retrieval failed")))).

Definition metadata_name (u : User) : option string :=
  match user_metadata u with Some m => md_name m | None => None end.

Definition metadata_business_id (u : User) : option string :=
  match user_metadata u with Some m => business_id m | None => None end.

(** A call whose promise nobody awaits: what it throws is lost. *)
Definition detached (p : Prog S unit) : Prog S unit :=
  try_catch p (fun _ => Ret tt).

(** [auth.onAuthStateChange(callback)] subscribes this wrapper around
    [callback] to the gateway's stream. *)
Definition onAuthStateChange_listener
  (callback : option AuthUser -> Prog S unit) (session : option Session)
  : Prog S unit :=
  match session with
  | Some s =>
      let u := session_user s in
      businessId <-
        match truthy_opt (metadata_business_id u) with
        | Some b => Ret (Some b)
        | None => call bc_getCurrentBusinessId
        end ;;
      match truthy_opt businessId with
      | Some b => _ <- await (bc_setBusinessContext b) ;; Ret tt
      | None => Ret tt
      end ;;
      let user := mkAuthUser (sb_id u) (or_default (sb_email u) "")
                             (metadata_name u) (truthy_opt businessId) in
      detached (callback (Some user))
  | None =>
      await bc_clearBusinessContext ;;
      detached (callback None)
  end.

Definition onAuthStateChange : Prog S unit := call sb_onAuthStateChange.

Definition resetPassword (email : string) : Prog S (AuthResult (option unit)) :=
  try_catch
    (r <- await (sb_resetPasswordForEmail email) ;;
     match gw_error r with
     | Some error => Ret (mkAuthResult None (Some (normalize error)))
     | None => Ret (mkAuthResult (gw_data r) None)
     end)
    (fun err =>
       Ret (mkAuthResult None (Some (unexpected err "Password reset failed")))).

Definition updatePassword (password : string) : Prog S (AuthResult (option User)) :=
  try_catch
    (r <- await (sb_updateUser_password password) ;;
     match gw_error r with
     | Some error => Ret (mkAuthResult None (Some (normalize error)))
     | None => Ret (mkAuthResult (gw_data r) None)
     end)
    (fun err =>
       Ret (mkAuthResult None (Some (unexpected err "Password update failed")))).

Definition verifyEmail (token : string) (type : OtpType)
  : Prog S (AuthResult AuthData) :=
  try_catch
    (r <- await (sb_verifyOtp token type) ;;
     match gw_error r with
     | Some error => Ret (mkAuthResult no_auth_data (Some (normalize error)))
     | None => Ret (mkAuthResult (gw_data r) None)
     end)
    (fun err =>
       Ret (mkAuthResult no_auth_data
                         (Some (unexpected err "Email verification failed")))).

(** [data?.messageId ?? undefined] *)
Definition messageId_of (d : option (option string)) : option string :=
  match d with Some m => m | None => None end.

Definition resendVerificationEmail (email : string) (type : OtpType)
  : Prog S (AuthResult (option (option string))) :=
  try_catch
    (r <- await (sb_resend (match type with
                            | otp_recovery => otp_signup
                            | t => t
                            end) email) ;;
     match gw_error r with
     | Some error => Ret (mkAuthResult None (Some (normalize error)))
     | None => Ret (mkAuthResult (Some (messageId_of (gw_data r))) None)
     end)
    (fun err =>
       Ret (mkAuthResult None (Some (unexpected err "Resend email failed")))).

End WithState.
End Auth.

(* ------------------------------------------------------------------ *)
(** ** The store: [useAuthStore] of lib/auth-store.ts *)

Definition result_data {D} (r : AuthResult D) : D := data r.
Definition result_error {D} (r : AuthResult D) : option AuthError := error r.

Module AuthStore.

Inductive AuthStatus : Type :=
| initializing
| unauthenticated
| authenticating
| authenticated
| signing_out.

Definition status_eqb (a b : AuthStatus) : bool :=
  match a, b with
  | initializing, initializing
  | unauthenticated, unauthenticated
  | authenticating, authenticating
  | authenticated, authenticated
  | signing_out, signing_out => true
  | _, _ => false
  end.

Record AuthState : Type := mkState {
  status : AuthStatus;
  user : option AuthUser;
  businessId : option string;
  error : option AuthError;
  isLoading : bool
}.

Definition M := Prog AuthState.

(** The state the store is created with. *)
Definition initial : AuthState := mkState initializing None None None true.

(** [{ id, email: email || '', name: user_metadata?.name,
       businessId: validatedBusinessId || undefined }] *)
Definition session_identity (u : User) (validatedBusinessId : option string)
  : AuthUser :=
  mkAuthUser (sb_id u) (or_default (sb_email u) "") (Auth.metadata_name u)
             (truthy_opt validatedBusinessId).

(** The callback [initialize] hands to [auth.onAuthStateChange]. *)
Definition on_change (authUser : option AuthUser) : M unit :=
  match authUser with
  | Some authUser =>
      currentBusinessId <- call bc_getCurrentBusinessId ;;
      let authUser :=
        match truthy_opt currentBusinessId with
        | Some b => mkAuthUser (id authUser) (email authUser) (name authUser) (Some b)
        | None => authUser
        end in
      set (mkState authenticated (Some authUser) currentBusinessId None false)
  | None =>
      await bc_clearBusinessContext ;;
      set (mkState unauthenticated None None None false)
  end.

Definition initialize : M unit :=
  try_catch
    (likelyAuthenticated <- Auth.isLikelyAuthenticated ;;
     if negb likelyAuthenticated then
       set (mkState unauthenticated None None None false)
     else
       r <- Auth.getSession ;;
       match result_error r with
       | Some error =>
           set (mkState unauthenticated None None (Some error) false)
       | None =>
           match result_data r with
           | Some session =>
               validatedBusinessId <-
                 try_catch (call bc_getCurrentBusinessId)
                           (fun businessError => Ret None) ;;
               let user := session_identity (session_user session)
                                            validatedBusinessId in
               set (mkState authenticated (Some user) validatedBusinessId
                            None false) ;;
               Auth.onAuthStateChange
           | None =>
               set (mkState unauthenticated None None None false)
           end
       end)
    (fun error =>
       set (mkState unauthenticated None None
                    (Some (mkAuthError (message_or error "Initialization failed")
                                       None))
                    false)).

(** [signIn] and [signUp] resolve to [{ error }]. *)
Definition signIn (email password : string) : M (option AuthError) :=
  set (mkState authenticating None None None true) ;;
  try_catch
    (result <- Auth.signIn email password ;;
     match result_error result with
     | Some e =>
         set (mkState unauthenticated None None (Some e) false) ;;
         Ret (Some e)
     | None => Ret None
     end)
    (fun error =>
       let authError := mkAuthError (message_or error "Sign in failed") None in
       set (mkState unauthenticated None None (Some authError) false) ;;
       Ret (Some authError)).

Definition signUp (email password : string) : M (option AuthError) :=
  set (mkState authenticating None None None true) ;;
  try_catch
    (result <- Auth.signUp email password ;;
     match result_error result with
     | Some e =>
         set (mkState unauthenticated None None (Some e) false) ;;
         Ret (Some e)
     | None => Ret None
     end)
    (fun error =>
       let authError := mkAuthError (message_or error "Sign up failed") None in
       set (mkState unauthenticated None None (Some authError) false) ;;
       Ret (Some authError)).

(** [set({ ...currentState, status: 'signing-out', isLoading: true })] *)
Definition begin_sign_out : M unit :=
  currentState <- get ;;
  if status_eqb (status currentState) authenticated then
    set (mkState signing_out (user currentState) (businessId currentState)
                 (error currentState) true)
  else Ret tt.

Definition signOut : M unit :=
  begin_sign_out ;;
  try_catch
    (await bc_clearBusinessContext ;;
     result <- Auth.signOut ;;
     match result with
     | Some e =>
         set (mkState unauthenticated None None (Some e) false) ;;
         Throw (JsError (message e))
     | None =>
         set (mkState unauthenticated None None None false)
     end)
    (fun error =>
       try_catch
         (await bc_clearBusinessContext ;;
          set (mkState unauthenticated None None None false))
         (fun cleanupError => Ret tt) ;;
       Throw error).

Definition enhancedSignOut (config : option LogoutConfig) : M EnhancedResult :=
  begin_sign_out ;;
  try_catch
    (result <- Auth.enhancedSignOut config ;;
     match e_error result with
     | Some _ =>
         try_catch
           (await bc_clearBusinessContext ;;
            set (mkState unauthenticated None None None false))
           (fun cleanupError => Ret tt)
     | None =>
         set (mkState unauthenticated None None None false)
     end ;;
     Ret result)
    (fun error =>
       try_catch
         (await bc_clearBusinessContext ;;
          set (mkState unauthenticated None None None false))
         (fun fallbackError => Ret tt) ;;
       Ret (mkEnhanced
              (Some (mkAuthError (message_or error "Enhanced sign out failed") None))
              None)).

Definition setBusinessContext (newBusinessId : string) : M (option AuthError) :=
  try_catch
    (result <- await (bc_setBusinessContext newBusinessId) ;;
     if negb (bc_success result) then
       Ret (Some (mkAuthError
                    (or_default (bc_error result)
                                "Error al establecer el contexto del negocio")
                    None))
     else
       currentState <- get ;;
       match status_eqb (status currentState) authenticated, user currentState with
       | true, Some u =>
           set (mkState (status currentState)
                        (Some (mkAuthUser (id u) (email u) (name u)
                                          (Some newBusinessId)))
                        (Some newBusinessId)
                        (error currentState) (isLoading currentState))
       | _, _ => Ret tt
       end ;;
       Ret None)
    (fun error =>
       Ret (Some (mkAuthError "Error al establecer el contexto del negocio" None))).

Definition getCurrentBusinessId : M (option string) :=
  call bc_getCurrentBusinessId.

Definition getCurrentBusinessIdAsync (autoSelect skipCache : option bool)
  : M (option string) :=
  state <- get ;;
  let userId := match user state with Some u => Some (id u) | None => None end in
  await (bc_getCurrentBusinessIdAsync (mkBcOptions autoSelect skipCache userId)).

Definition refreshSession : M unit :=
  try_catch
    (r <- Auth.getSession ;;
     match result_data r with
     | Some session =>
         validatedBusinessId <- call bc_getCurrentBusinessId ;;
         let authUser := session_identity (session_user session)
                                          validatedBusinessId in
         set (mkState authenticated (Some authUser) validatedBusinessId None false)
     | None =>
         set (mkState unauthenticated None None None false) ;;
         await bc_clearBusinessContext
     end)
    (fun error =>
       set (mkState unauthenticated None None None false) ;;
       await bc_clearBusinessContext).

Definition _setUnauthenticated (error : option AuthError) : M unit :=
  set (mkState unauthenticated None None error false).

Definition _setAuthenticated (user : AuthUser) (businessId : option string)
  : M unit :=
  set (mkState authenticated (Some user) (truthy_opt businessId) None false).

(** What runs when the gateway's stream emits and the store's listener is
    subscribed. *)
Definition change_event (session : option Session) : M unit :=
  Auth.onAuthStateChange_listener on_change session.

End AuthStore.

(* ------------------------------------------------------------------ *)
(** ** The context-based provider: [AuthProvider] of lib/auth-context.tsx *)

Module AuthContext.

(** The provider's React state, with the [mounted] flag of its effect. *)
Record State : Type := mkState {
  user : option AuthUser;
  isLoading : bool;
  isInitialized : bool;
  mounted : bool
}.

Definition M := Prog State.

(** The state the provider is mounted with. *)
Definition initial : State := mkState None true false true.

Definition setUser (u : option AuthUser) : M unit :=
  s <- get ;; set (mkState u (isLoading s) (isInitialized s) (mounted s)).

Definition setIsLoading (b : bool) : M unit :=
  s <- get ;; set (mkState (user s) b (isInitialized s) (mounted s)).

Definition setIsInitialized (b : bool) : M unit :=
  s <- get ;; set (mkState (user s) (isLoading s) b (mounted s)).

Definition when_mounted (p : M unit) : M unit :=
  s <- get ;; if mounted s then p else Ret tt.

(** The callback [initializeAuth] hands to [auth.onAuthStateChange]. *)
Definition on_change (authUser : option AuthUser) : M unit :=
  when_mounted
    (authUser <-
       match authUser with
       | Some authUser =>
           validatedBusinessId <- call bc_getCurrentBusinessId ;;
           match truthy_opt validatedBusinessId with
           | Some b =>
               Ret (Some (mkAuthUser (id authUser) (email authUser)
                                     (name authUser) (Some b)))
           | None => Ret (Some authUser)
           end
       | None => await bc_clearBusinessContext ;; Ret None
       end ;;
     setUser authUser).

Definition initializeAuth : M unit :=
  try_finally
    (try_catch
       (likelyAuthenticated <- Auth.isLikelyAuthenticated ;;
        if negb likelyAuthenticated then Ret tt
        else
          result <- Auth.getSession ;;
          s <- get ;;
          match mounted s, result_data result with
          | true, Some session =>
              validatedBusinessId <-
                try_catch (call bc_getCurrentBusinessId)
                          (fun businessError => Ret None) ;;
              let authUser :=
                mkAuthUser (sb_id (session_user session))
                           (or_default (sb_email (session_user session)) "")
                           (Auth.metadata_name (session_user session))
                           (truthy_opt validatedBusinessId) in
              when_mounted (setUser (Some authUser))
          | _, _ => Ret tt
          end ;;
          Auth.onAuthStateChange)
       (fun error => Ret tt))
    (when_mounted (setIsInitialized true ;; setIsLoading false)).

Definition signOut : M unit :=
  setIsLoading true ;;
  try_finally
    (try_catch
       (await bc_clearBusinessContext ;;
        result <- Auth.signOut ;;
        match result with
        | Some e => Throw (JsError (message e))
        | None => Ret tt
        end)
       (fun error =>
          try_catch (await bc_clearBusinessContext ;; setUser None)
                    (fun cleanupError => Ret tt) ;;
          Throw error))
    (setIsLoading false).

Definition refreshSession : M unit :=
  try_catch
    (r <- Auth.getSession ;;
     match result_data r with
     | Some session =>
         validatedBusinessId <- call bc_getCurrentBusinessId ;;
         setUser (Some (mkAuthUser (sb_id (session_user session))
                                   (or_default (sb_email (session_user session)) "")
                                   (Auth.metadata_name (session_user session))
                                   (truthy_opt validatedBusinessId)))
     | None => setUser None ;; await bc_clearBusinessContext
     end)
    (fun error => setUser None ;; await bc_clearBusinessContext).

End AuthContext.

(* ------------------------------------------------------------------ *)
(** ** The login view's own check: [checkAuthentication] of
       app/(auth)/login/page.tsx *)

Module LoginPage.
Section WithRuntime.
(** [decodeURIComponent], which throws on a malformed escape. *)
Variable decodeURIComponent : string -> Reply string.

Record State : Type := mkState {
  checkingAuth : bool;
  hasRedirected : bool;
  cancelled : bool
}.

Definition M := Prog State.

Definition initial : State := mkState true false false.

(** [if (!cancelledRef.current && !hasRedirectedRef.current)
        setCheckingAuth(false)] *)
Definition show_form : M unit :=
  s <- get ;;
  if negb (cancelled s) && negb (hasRedirected s) then
    set (mkState false (hasRedirected s) (cancelled s))
  else Ret tt.

Definition session_timeout_ms : N := 5000.

(** The body of the inner [try]: the raced session check and what follows. *)
Definition verify_session (returnUrl : option string) : M unit :=
  result <- race Auth.getSession session_timeout_ms
                 "Session verification timeout" ;;
  s <- get ;;
  if cancelled s then Ret tt
  else
    match result_error result with
    | Some error => Ret tt
    | None =>
        s <- get ;;
        if is_some (result_data result) && negb (cancelled s)
           && negb (hasRedirected s)
        then
          s <- get ;;
          set (mkState (checkingAuth s) true (cancelled s)) ;;
          redirectPath <-
            match truthy_opt returnUrl with
            | Some u => of_reply (decodeURIComponent u)
            | None => Ret "/dashboard"
            end ;;
          call (navigate redirectPath)
        else Ret tt
    end.

Definition checkAuthentication (returnUrl : option string) : M unit :=
  s <- get ;;
  if hasRedirected s then Ret tt
  else
    try_finally
      (try_catch
         (likelyAuthenticated <- Auth.isLikelyAuthenticated ;;
          if negb likelyAuthenticated then show_form
          else
            try_catch (verify_session returnUrl)
                      (fun timeoutError => Ret tt))
         (fun error => Ret tt))
      show_form.

End WithRuntime.
End LoginPage.

(* ------------------------------------------------------------------ *)
(** ** [encodeURIComponent] *)

(** Strings hold UTF-8 bytes; every byte outside
    [A-Z a-z 0-9 - _ . ! ~ * ' ( )] is written as [%XX]. *)
Definition is_unreserved (c : ascii) : bool :=
  let n := nat_of_ascii c in
  (Nat.leb 65 n && Nat.leb n 90) || (Nat.leb 97 n && Nat.leb n 122)
  || (Nat.leb 48 n && Nat.leb n 57)
  || existsb (Nat.eqb n) [45; 95; 46; 33; 126; 42; 39; 40; 41].

Definition hex_digit (n : nat) : ascii :=
  if Nat.ltb n 10 then ascii_of_nat (48 + n) else ascii_of_nat (55 + n).

Fixpoint encodeURIComponent (s : string) : string :=
  match s with
  | EmptyString => EmptyString
  | String c rest =>
      if is_unreserved c then String c (encodeURIComponent rest)
      else
        let n := nat_of_ascii c in
        String "%" (String (hex_digit (n / 16))
                           (String (hex_digit (n mod 16))
                                   (encodeURIComponent rest)))
  end.

(* ------------------------------------------------------------------ *)
(** ** The route guards *)

Module Guard.

(** State of the [useBusinessContext] hook (lib/auth-context.tsx and
    lib/auth-store.ts carry the same body). *)
Record HookState : Type := mkHook {
  businessId : option string;
  isLoading : bool;
  error : option string
}.

Definition hook_initial : HookState := mkHook None true None.

Definition setBusinessId (b : option string) : Prog HookState unit :=
  s <- get ;; set (mkHook b (isLoading s) (error s)).

Definition setIsLoading (b : bool) : Prog HookState unit :=
  s <- get ;; set (mkHook (businessId s) b (error s)).

Definition setError (e : option string) : Prog HookState unit :=
  s <- get ;; set (mkHook (businessId s) (isLoading s) e).

(** [loadBusinessContext] of [useBusinessContext], while mounted. *)
Definition loadBusinessContext (isInitialized : bool) (user : option AuthUser)
  (autoSelect skipCache : option bool) : Prog HookState unit :=
  match isInitialized, user with
  | true, Some u =>
      try_catch
        (setIsLoading true ;;
         setError None ;;
         result <- await (bc_getCurrentBusinessIdAsync
                            (mkBcOptions autoSelect skipCache (Some (id u)))) ;;
         setBusinessId result ;;
         setIsLoading false)
        (fun err =>
           match err with
           | JsError m =>
               if String.eqb m "TIMEOUT" then setError (Some "TIMEOUT")
               else setError (Some m)
           | JsOther => setError (Some "Failed to load business context")
           end ;;
           setIsLoading false)
  | _, _ => setIsLoading false
  end.

Inductive Decision : Type :=
| Wait
| Redirect (url : string)
| Stay.

(** The effect of the hook-based guard, a function of what the hooks
    report. *)
Definition hook_guard (authLoading : bool) (user : option AuthUser)
  (requireBusinessContext : bool) (redirectTo pathname : string)
  (businessContext : HookState) : Decision :=
  let businessId :=
    if requireBusinessContext then businessId businessContext else None in
  let isBusinessLoading :=
    if requireBusinessContext then isLoading businessContext else false in
  let businessError :=
    if requireBusinessContext then error businessContext else None in
  if authLoading || (requireBusinessContext && isBusinessLoading) then Wait
  else
    match user with
    | None =>
        Redirect (redirectTo ++ "?returnUrl=" ++ encodeURIComponent pathname)
    | Some _ =>
        if requireBusinessContext then
          match truthy_opt businessError with
          | Some e =>
              if String.eqb e "TIMEOUT" then
                Redirect "/register/business?reason=timeout"
              else Redirect "/register/business?reason=error"
          | None =>
              match truthy_opt businessId with
              | None => Redirect "/register/business?reason=no-business"
              | Some _ => Stay
              end
          end
        else Stay
    end.

(** The effect of the promise-based guard; its state is
    [isBusinessReady]. *)
Definition promise_guard (authLoading : bool) (user : option AuthUser)
  (requireBusinessContext : bool) (redirectTo pathname : string)
  : Prog bool unit :=
  if authLoading then Ret tt
  else
    match user with
    | None =>
        call (navigate (redirectTo ++ "?returnUrl="
                                   ++ encodeURIComponent pathname))
    | Some u =>
        if requireBusinessContext then
          try_catch
            (found <- await (bc_getCurrentBusinessIdAsync
                               (mkBcOptions (Some true) None (Some (id u)))) ;;
             match truthy_opt found with
             | Some b => Ret b
             | None => Throw (JsError "No business found")
             end ;;
             set true)
            (fun error =>
               match error with
               | JsError m =>
                   if String.eqb m "TIMEOUT" then
                     call (navigate "/register/business?reason=timeout")
                   else if String.eqb m "No business found" then
                     call (navigate "/register/business?reason=no-business")
                   else call (navigate "/register/business?reason=error")
               | JsOther =>
                   call (navigate "/register/business?reason=error")
               end)
        else Ret tt
    end.

(** Where a run navigated to. *)
Definition navigations {S} (evs : list (Event S)) : list string :=
  flat_map (fun ev =>
              match ev with
              | EvSync c _ =>
                  match c with navigate url => [url] | _ => [] end
              | _ => []
              end) evs.

End Guard.


(* ------------------------------------------------------------------ *)
(** ** The facade's tenant operations (lib/auth.ts) *)

(** Result of [businessContext.validateBusinessAccess]. *)
Record AccessResult : Type := mkAccess {
  access_success : bool;
  access_error : option AuthError
}.

(** [{ valid, error }] *)
Record Validity : Type := mkValidity {
  valid : bool;
  validity_error : option AuthError
}.

Module AuthBusiness.
Section WithState.
Context {S : Type}.

(** [result.success ? null
       : (result.error ? { message: result.error.message, status: 500 }
                       : { message: fallback, status: 500 })] *)
Definition context_error (fallback : string) (result : BcResult)
  : option AuthError :=
  if bc_success result then None
  else match bc_error result with
       | Some m => Some (mkAuthError m (Some 500%N))
       | None => Some (mkAuthError fallback (Some 500%N))
       end.

(** [auth.setBusinessContext]: the user's metadata first, then the full
    tenant context. *)
Definition setBusinessContext (businessId : string)
  : Prog S (option AuthError) :=
  try_catch
    (r <- await (sb_updateUser_data businessId) ;;
     match gw_error r with
     | Some updateError => Ret (Some (Auth.normalize updateError))
     | None =>
         result <- await (bc_setBusinessContext businessId) ;;
         Ret (context_error "Failed to set context" result)
     end)
    (fun err =>
       Ret (Some (Auth.unexpected err "Failed to set business context"))).

Section Validation.
(** [validateBusinessAccess] of the absent lib/business-context: any
    program may stand for it. *)
Variable bc_validateBusinessAccess : string -> string -> Prog S AccessResult.

(** [auth.validateBusinessAccess]; it has no [try]. *)
Definition validateBusinessAccess (businessId : string) : Prog S Validity :=
  userData <- Auth.getUser ;;
  match result_data userData with
  | None =>
      Ret (mkValidity false
             (Some (mkAuthError "User not authenticated" (Some 401%N))))
  | Some user =>
      result <- bc_validateBusinessAccess (sb_id user) businessId ;;
      Ret (mkValidity
             (access_success result)
             (if access_success result then None
              else match access_error result with
                   | Some e => Some e
                   | None => Some (mkAuthError "Validation failed" (Some 500%N))
                   end))
  end.

End Validation.

End WithState.
End AuthBusiness.

(* ------------------------------------------------------------------ *)
(** ** The store's hooks (lib/auth-store.ts) *)

Module StoreHooks.
Import AuthStore.

(** [state.status === 'authenticated'] *)
Definition useIsAuthenticated (state : AuthState) : bool :=
  status_eqb (status state) authenticated.

(** [state.status !== 'initializing'] *)
Definition useIsInitialized (state : AuthState) : bool :=
  negb (status_eqb (status state) initializing).

(** The effect of [useRequireAuth]. *)
Definition useRequireAuth : M unit :=
  state <- get ;;
  if useIsInitialized state && negb (useIsAuthenticated state) then
    call (navigate "/login")
  else Ret tt.

(** The effect of [useRequireBusinessContext]. *)
Definition useRequireBusinessContext : M unit :=
  state <- get ;;
  if useIsInitialized state && useIsAuthenticated state
     && negb (is_some (truthy_opt (businessId state))) then
    call (navigate "/register/business")
  else Ret tt.

End StoreHooks.

(* ------------------------------------------------------------------ *)
(** ** The provider's other actions (lib/auth-context.tsx) *)

Module ContextActions.
Import AuthContext.

Definition signIn (email password : string) : M (option AuthError) :=
  setIsLoading true ;;
  try_finally
    (try_catch
       (result <- Auth.signIn email password ;;
        match result_error result with
        | Some e => Ret (Some e)
        | None =>
            try_catch (_ <- call bc_getCurrentBusinessId ;; Ret tt)
                      (fun contextError => Ret tt) ;;
            Ret None
        end)
       (fun error =>
          Ret (Some (mkAuthError "Error inesperado al iniciar sesión" None))))
    (setIsLoading false).

Definition signUp (email password : string) : M (option AuthError) :=
  setIsLoading true ;;
  try_finally
    (try_catch
       (result <- Auth.signUp email password ;;
        match result_error result with
        | Some e => Ret (Some e)
        | None => Ret None
        end)
       (fun error =>
          Ret (Some (mkAuthError "Error inesperado al registrar usuario" None))))
    (setIsLoading false).

(** [if (config?.redirectToLogin && typeof window !== 'undefined')
        window.location.replace(config.redirectUrl || fallback)] *)
Definition force_redirect (config : option LogoutConfig) (fallback : string)
  : M unit :=
  match config with
  | Some cfg =>
      match redirectToLogin cfg with
      | Some true =>
          w <- call window_defined ;;
          if w then call (navigate (or_default (redirectUrl cfg) fallback))
          else Ret tt
      | _ => Ret tt
      end
  | None => Ret tt
  end.

Definition enhancedSignOut (config : option LogoutConfig) : M EnhancedResult :=
  setIsLoading true ;;
  try_finally
    (try_catch
       (result <- Auth.enhancedSignOut config ;;
        match e_error result with
        | Some _ =>
            try_catch
              (await bc_clearBusinessContext ;;
               setUser None ;;
               force_redirect config "/login")
              (fun cleanupError => Ret tt)
        | None => setUser None
        end ;;
        Ret result)
       (fun error =>
          try_catch
            (await bc_clearBusinessContext ;;
             setUser None ;;
             force_redirect config "/login?reason=emergency")
            (fun fallbackError => Ret tt) ;;
          Ret (mkEnhanced
                 (Some (mkAuthError (message_or error "Enhanced sign out failed")
                                    None))
                 None)))
    (setIsLoading false).

End ContextActions.

(* ------------------------------------------------------------------ *)
(** ** The login form (app/(auth)/login/page.tsx) *)

Module LoginForm.
Section WithRuntime.
(** [decodeURIComponent], which throws on a malformed escape. *)
Variable decodeURIComponent : string -> Reply string.
(** [LoginSchema.parse] followed by [extractValidationErrors], both of the
    absent components/forms/validation-schemas: [None] when the data
    parse, the field errors otherwise. *)
Variable validate : string -> string -> option (list (string * string)).

Record LoginData : Type := mkLoginData {
  email : string;
  password : string
}.

(** [errors] is a [Record<string, string>]. *)
Record State : Type := mkState {
  formData : LoginData;
  errors : list (string * string);
  isLoading : bool
}.

Definition M := Prog State.

Definition initial : State := mkState (mkLoginData "" "") [] false.

Definition setErrors (e : list (string * string)) : M unit :=
  s <- get ;; set (mkState (formData s) e (isLoading s)).

Definition setIsLoading (b : bool) : M unit :=
  s <- get ;; set (mkState (formData s) (errors s) b).

Definition validateForm : M bool :=
  s <- get ;;
  match validate (email (formData s)) (password (formData s)) with
  | None => setErrors [] ;; Ret true
  | Some validationErrors => setErrors validationErrors ;; Ret false
  end.

(** The text shown for a failed sign-in. *)
Definition login_error_text (message : string) : string :=
  if includes message "Invalid login credentials" then
    "Email o contraseña incorrectos. Por favor verifica tus credenciales."
  else if includes message "Email not confirmed" then
    "Debes verificar tu email antes de iniciar sesión. Revisa tu bandeja de entrada."
  else if includes message "Too many requests" then
    "Demasiados intentos de inicio de sesión. Intenta de nuevo en unos minutos."
  else if includes message "Network" then
    "Error de conexión. Verifica tu conexión a internet e intenta de nuevo."
  else if truthy message then message
  else "Error al iniciar sesión. Intenta de nuevo.".

Definition handleSubmit (returnUrl : option string) : M unit :=
  ok <- validateForm ;;
  if negb ok then Ret tt
  else
    s <- get ;;
    setIsLoading true ;;
    setErrors [] ;;
    try_finally
      (try_catch
         (result <- Auth.signIn (email (formData s)) (password (formData s)) ;;
          match result_error result with
          | Some e => setErrors [("form", login_error_text (message e))]
          | None =>
              match d_session (result_data result) with
              | Some _ =>
                  redirectPath <-
                    match truthy_opt returnUrl with
                    | Some u => of_reply (decodeURIComponent u)
                    | None => Ret "/dashboard"
                    end ;;
                  call (navigate redirectPath)
              | None =>
                  setErrors [("form", "Error inesperado al iniciar sesión")]
              end
          end)
         (fun error =>
            setErrors [("form", "Error inesperado. Intenta de nuevo más tarde.")]))
      (setIsLoading false).

Definition handleForgotPassword : M unit :=
  s <- get ;;
  let email := email (formData s) in
  if negb (truthy email) then
    setErrors [("email", "Ingresa tu email para recuperar la contraseña")]
  else
    try_catch
      (result <- Auth.resetPassword email ;;
       match result_error result with
       | Some _ =>
           setErrors [("form", "Error al enviar el email de recuperación")]
       | None =>
           setErrors [("form", "Se ha enviado un email de recuperación a "
                               ++ email
                               ++ ". Revisa tu bandeja de entrada.")]
       end)
      (fun error =>
         setErrors [("form", "Error al enviar el email de recuperación")]).

(** The banner above the form: none, or the text of [errors.form] on a
    green or a red ground. *)
Inductive Banner : Type :=
| NoBanner
| Green (text : string)
| Red (text : string).

Definition banner (s : State) : Banner :=
  match truthy_opt (getItem (errors s) "form") with
  | None => NoBanner
  | Some text => if includes text "enviado" then Green text else Red text
  end.

(** The effect that runs when the view mounts; [logout] and [returnUrl]
    are the query parameters. *)
Definition mount (logout returnUrl : option string) : LoginPage.M unit :=
  s <- get ;;
  set (LoginPage.mkState (LoginPage.checkingAuth s)
                         (LoginPage.hasRedirected s) false) ;;
  let isLogout :=
    match logout with Some v => String.eqb v "true" | None => false end in
  s <- get ;;
  if LoginPage.hasRedirected s then
    set (LoginPage.mkState false (LoginPage.hasRedirected s)
                           (LoginPage.cancelled s))
  else if negb isLogout then
    try_catch (LoginPage.checkAuthentication decodeURIComponent returnUrl)
              (fun error => LoginPage.show_form)
  else
    set (LoginPage.mkState false (LoginPage.hasRedirected s)
                           (LoginPage.cancelled s)).

End WithRuntime.
End LoginForm.

(* ------------------------------------------------------------------ *)
(** ** What the route guards render *)

Module GuardView.
Import Guard.

Inductive View : Type :=
| Loading (caption : string) (hint : bool)
| Blank
| Content.

Definition caption_of (authLoading : bool) : string :=
  if authLoading then "Verificando autenticación..."
  else "Cargando contexto del negocio...".

(** The hook-based guard. *)
Definition hook_render (authLoading : bool) (user : option AuthUser)
  (requireBusinessContext : bool) (businessContext : HookState) : View :=
  let businessId :=
    if requireBusinessContext then businessId businessContext else None in
  let isBusinessLoading :=
    if requireBusinessContext then isLoading businessContext else false in
  if authLoading || (requireBusinessContext && isBusinessLoading) then
    Loading (caption_of authLoading)
            (requireBusinessContext && isBusinessLoading)
  else if negb (is_some user)
          || (requireBusinessContext && negb (is_some (truthy_opt businessId)))
  then Blank
  else Content.

(** The promise-based guard. *)
Definition promise_render (authLoading : bool) (user : option AuthUser)
  (requireBusinessContext : bool) (isBusinessReady : bool) : View :=
  if authLoading || (requireBusinessContext && negb isBusinessReady) then
    Loading (caption_of authLoading)
            (requireBusinessContext && negb isBusinessReady)
  else if negb (is_some user)
          || (requireBusinessContext && negb isBusinessReady)
  then Blank
  else Content.

End GuardView.

(* ------------------------------------------------------------------ *)
(** ** The landing page (app/page.tsx) *)

Module HomePage.

(** [redirect] of next/navigation leaves the function by throwing. *)
Definition redirect {A} (url : string) : Prog unit A :=
  call (navigate url) ;; Throw (JsError "NEXT_REDIRECT").

Definition Home : Prog unit unit :=
  r <- await sb_getSession ;;
  match gw_data r with
  | None => redirect "/login"
  | Some _ => Ret tt
  end ;;
  redirect "/dashboard".

End HomePage.

(* ------------------------------------------------------------------ *)
(** ** Observing a run *)

Section Observations.
Context {S : Type}.

(** What sequencing does to an outcome. *)
Definition and_then {A B} (o : Outcome (S:=S) A)
  (f : A -> World S -> Outcome (S:=S) B) : Outcome (S:=S) B :=
  let '(c, w, evs) := o in
  match c with
  | Done a => emit_all evs (f a w)
  | Raised e => (Raised e, w, evs)
  | Pending => (Pending, w, evs)
  end.

(** What a handler does to an outcome. *)
Definition or_else {A} (o : Outcome (S:=S) A)
  (h : Exn -> World S -> Outcome (S:=S) A) : Outcome (S:=S) A :=
  let '(c, w, evs) := o in
  match c with
  | Done a => (Done a, w, evs)
  | Raised e => emit_all evs (h e w)
  | Pending => (Pending, w, evs)
  end.

(** What a [finally] block does to an outcome. *)
Definition and_finally {A} (o : Outcome (S:=S) A)
  (f : World S -> Outcome (S:=S) unit) : Outcome (S:=S) A :=
  let '(c, w, evs) := o in
  match c with
  | Done a => emit_all evs (and_then (f w) (fun _ w' => (Done a, w', [])))
  | Raised e => emit_all evs (and_then (f w) (fun _ w' => (Raised e, w', [])))
  | Pending => (Pending, w, evs)
  end.

Definition completion {A} (o : Outcome (S:=S) A) : Completion A := fst (fst o).
Definition final {A} (o : Outcome (S:=S) A) : World S := snd (fst o).
Definition events {A} (o : Outcome (S:=S) A) : list (Event S) := snd o.

Definition settled {A} (c : Completion A) : bool :=
  match c with Pending => false | _ => true end.

(** A request to the gateway, the resolver or the logout routine. *)
Definition is_request (ev : Event S) : bool :=
  match ev with EvCall _ _ => true | _ => false end.

(** Nothing left the browser. *)
Definition local_only (evs : list (Event S)) : bool :=
  forallb (fun ev => negb (is_request ev)) evs.

(** A request that never got an answer. *)
Definition unanswered (ev : Event S) : bool :=
  match ev with EvCall _ Never => true | _ => false end.

Definition all_answered (evs : list (Event S)) : bool :=
  forallb (fun ev => negb (unanswered ev)) evs.

(** The states written, in order. *)
Definition writes (evs : list (Event S)) : list S :=
  flat_map (fun ev => match ev with EvPut s => [s] | _ => [] end) evs.

(** Registrations on the gateway's change-event stream. *)
Definition is_subscription (ev : Event S) : bool :=
  match ev with
  | EvSync c (Resolves _) =>
      match c with sb_onAuthStateChange => true | _ => false end
  | _ => false
  end.

(** A [clearBusinessContext] that resolved. *)
Definition clear_resolved (ev : Event S) : bool :=
  match ev with
  | EvCall c (After _ (Resolves _)) =>
      match c with bc_clearBusinessContext => true | _ => false end
  | _ => false
  end.

(** The reply of the gateway to a credential request, when [ev] is one. *)
Definition credential_reply (ev : Event S)
  : option (Reply (GwResult AuthData)) :=
  match ev with
  | EvCall c (After _ r) =>
      match c in Call X return Reply X -> option (Reply (GwResult AuthData)) with
      | sb_signInWithPassword _ _ => fun r => Some r
      | sb_signUp _ _ => fun r => Some r
      | _ => fun _ => None
      end r
  | _ => None
  end.

(** How the gateway's sign-out request settled, when [ev] is one. *)
Definition sign_out_settled (ev : Event S) : option (Settle (GwResult unit)) :=
  match ev with
  | EvCall c s =>
      match c in Call X return Settle X -> option (Settle (GwResult unit)) with
      | sb_signOut => fun s => Some s
      | _ => fun _ => None
      end s
  | _ => None
  end.

(** How the gateway's session query settled, when [ev] is one. *)
Definition session_settled (ev : Event S)
  : option (Settle (GwResult (option Session))) :=
  match ev with
  | EvCall c s =>
      match c in Call X
            return Settle X -> option (Settle (GwResult (option Session))) with
      | sb_getSession => fun s => Some s
      | _ => fun _ => None
      end s
  | _ => None
  end.

(** How the resolver's asynchronous lookup ended, when [ev] is one. *)
Definition resolver_reply (ev : Event S) : option (Reply (option string)) :=
  match ev with
  | EvCall c (After _ r) =>
      match c in Call X return Reply X -> option (Reply (option string)) with
      | bc_getCurrentBusinessIdAsync _ => fun r => Some r
      | _ => fun _ => None
      end r
  | _ => None
  end.

End Observations.

(** The error a failed gateway reply amounts to: the one it returned, or
    the facade's wrapping of what it threw. *)
Definition gateway_error {D} (fallback : string) (r : Reply (GwResult D))
  : option AuthError :=
  match r with
  | Resolves g => gw_error g
  | Rejects ex => Some (mkAuthError (message_or ex fallback) (Some 500%N))
  end.

(** Number of times a flag goes from [true] to [false] along a history. *)
Fixpoint falling_edges (history : list bool) : nat :=
  match history with
  | a :: (b :: _) as rest =>
      (if a && negb b then 1 else 0) + falling_edges rest
  | _ => 0
  end.

(* ------------------------------------------------------------------ *)
(** ** Interleaved execution *)

(** One step of one program.  The environment may answer a request with
    any reply, a synchronous call that can throw may throw anything, and
    the timer of a race may fire at any moment.  Switching threads is
    allowed between any two steps, which includes every schedule of the
    JavaScript event loop (where switches happen at [await] only). *)
Inductive tstep {S : Type}
  : forall A, World S -> Prog S A -> World S -> Prog S A -> Prop :=
| step_get : forall A (k : S -> Prog S A) w,
    tstep w (Get k) w (k (store w))
| step_put : forall A s (k : Prog S A) w,
    tstep w (Put s k) (put_store s w) k
| step_sync : forall A X (c : SyncCall X) (k : Reply X -> Prog S A) w,
    tstep w (Sync c k)
          (sync_effect c (Resolves (sync_value c w)) w)
          (k (Resolves (sync_value c w)))
| step_sync_throw : forall A X (c : SyncCall X) (k : Reply X -> Prog S A) w e,
    may_throw c = true ->
    tstep w (Sync c k) w (k (Rejects e))
| step_await : forall A X (c : Call X) (k : Reply X -> Prog S A) w r,
    tstep w (Await c k) (call_effect c r w) (k r)
| step_race_inside : forall A X (q q' : Prog S X) ms e
                            (k : Reply X -> Prog S A) w w',
    tstep w q w' q' ->
    tstep w (Race q ms e k) w' (Race q' ms e k)
| step_race_done : forall A X (x : X) ms e (k : Reply X -> Prog S A) w,
    tstep w (Race (Ret x) ms e k) w (k (Resolves x))
| step_race_raised : forall A X e' ms e (k : Reply X -> Prog S A) w,
    tstep w (Race (@Throw S X e') ms e k) w (k (Rejects e'))
| step_race_timeout : forall A X (q : Prog S X) ms e
                             (k : Reply X -> Prog S A) w,
    tstep w (Race q ms e k) w (k (Rejects e)).

Module Interleaving.
Import AuthStore.

(** What callers and the gateway can do to the store. *)
Inductive Action : Type :=
| call_initialize
| call_signIn (email password : string)
| call_signUp (email password : string)
| call_signOut
| call_enhancedSignOut (config : option LogoutConfig)
| call_setBusinessContext (businessId : string)
| call_getCurrentBusinessIdAsync (autoSelect skipCache : option bool)
| call_refreshSession
| call_setUnauthenticated (error : option AuthError)
| call_setAuthenticated (user : AuthUser) (businessId : option string)
| gateway_event (session : option Session).

Definition discard {A} (p : M A) : M unit := p ;; Ret tt.

Definition program (a : Action) : M unit :=
  match a with
  | call_initialize => initialize
  | call_signIn e p => discard (signIn e p)
  | call_signUp e p => discard (signUp e p)
  | call_signOut => signOut
  | call_enhancedSignOut c => discard (enhancedSignOut c)
  | call_setBusinessContext b => discard (setBusinessContext b)
  | call_getCurrentBusinessIdAsync a s => discard (getCurrentBusinessIdAsync a s)
  | call_refreshSession => refreshSession
  | call_setUnauthenticated e => _setUnauthenticated e
  | call_setAuthenticated u b => _setAuthenticated u b
  | gateway_event s => change_event s
  end.

(** The gateway's stream reaches the store through a subscription only. *)
Definition enabled (a : Action) (w : World AuthState) : bool :=
  match a with
  | gateway_event _ => Nat.ltb 0 (subscriptions w)
  | _ => true
  end.

(** The world and the calls in flight. *)
Definition Config : Type := (World AuthState * list (M unit))%type.

Inductive step : Config -> Config -> Prop :=
| invoke : forall a w ts,
    enabled a w = true ->
    step (w, ts) (w, program a :: ts)
| advance : forall w p w' p' ts1 ts2,
    tstep w p w' p' ->
    step (w, (ts1 ++ p :: ts2)%list) (w', (ts1 ++ p' :: ts2)%list).

Definition boot (b : Browser) (cache : option string) : Config :=
  (mkWorld initial cache 0 b 0%N 0, []).

(** The store states that occur in some execution from page load. *)
Definition reachable (s : AuthState) : Prop :=
  exists b cache w ts,
    clos_refl_trans Config step (boot b cache) (w, ts) /\ store w = s.

(** The values of the TypeScript union [AuthState]. *)
Definition well_typed (s : AuthState) : bool :=
  match status s with
  | initializing | authenticating =>
      negb (is_some (user s)) && negb (is_some (businessId s))
      && negb (is_some (error s)) && isLoading s
  | unauthenticated =>
      negb (is_some (user s)) && negb (is_some (businessId s))
      && negb (isLoading s)
  | authenticated =>
      is_some (user s) && negb (is_some (error s)) && negb (isLoading s)
  | signing_out =>
      is_some (user s) && negb (is_some (error s)) && isLoading s
  end.

(** Every state the program can write is well typed, whatever the
    environment answers and whatever well-typed state it reads. *)
Fixpoint Safe {A} (p : M A) : Prop :=
  match p with
  | Ret _ => True
  | Throw _ => True
  | Get k => forall s, well_typed s = true -> Safe (k s)
  | Put s k => well_typed s = true /\ Safe k
  | Sync _ k => forall r, Safe (k r)
  | Await _ k => forall r, Safe (k r)
  | Race q _ _ k => Safe q /\ forall r, Safe (k r)
  end.

End Interleaving.

(* ------------------------------------------------------------------ *)
(** ** Vocabulary of the properties *)

Section StoreVocabulary.
Import AuthStore.




(** The loading flag along a run: its value before, then after each write. *)
Definition loading_history (w : World AuthState) (evs : list (Event AuthState))
  : list bool :=
  isLoading (store w) :: map isLoading (writes evs).

End StoreVocabulary.

(** What [auth.signOut] makes of the way the gateway's request settled:
    an error only when the gateway returned one before the deadline. *)
Definition sign_out_verdict (s : Settle (GwResult unit)) : option AuthError :=
  match s with
  | After ms (Resolves g) => if (ms <? 2000)%N then gw_error g else None
  | After ms (Rejects _) => None
  | Never => None
  end.

(** A check is bounded when it settles whatever the environment does. *)
Definition always_settles {S A} (p : Prog S A) : Prop :=
  forall env (w : World S), settled (completion (run env p w)) = true.

Section FacadeVocabulary.
Context {S : Type}.

Definition raises {A} (c : Completion A) : bool :=
  match c with Raised _ => true | _ => false end.

(** The operations of the facade. *)
Inductive Operation : Type :=
| op_signUp (email password : string)
| op_signIn (email password : string)
| op_signOut
| op_enhancedSignOut (config : option LogoutConfig)
| op_getSession
| op_getUser
| op_resetPassword (email : string)
| op_updatePassword (password : string)
| op_verifyEmail (token : string) (type : OtpType)
| op_resendVerificationEmail (email : string) (type : OtpType).

Definition throws env (w : World S) (op : Operation) : bool :=
  match op with
  | op_signUp e p => raises (completion (run env (Auth.signUp e p) w))
  | op_signIn e p => raises (completion (run env (Auth.signIn e p) w))
  | op_signOut => raises (completion (run env Auth.signOut w))
  | op_enhancedSignOut c => raises (completion (run env (Auth.enhancedSignOut c) w))
  | op_getSession => raises (completion (run env Auth.getSession w))
  | op_getUser => raises (completion (run env Auth.getUser w))
  | op_resetPassword e => raises (completion (run env (Auth.resetPassword e) w))
  | op_updatePassword p => raises (completion (run env (Auth.updatePassword p) w))
  | op_verifyEmail t ty => raises (completion (run env (Auth.verifyEmail t ty) w))
  | op_resendVerificationEmail e ty =>
      raises (completion (run env (Auth.resendVerificationEmail e ty) w))
  end.

End FacadeVocabulary.

Section ContextVocabulary.
Import AuthContext.

(** The [try]/[catch] of the context-based [signOut], without its
    [finally]. *)
Definition signOut_body : M unit :=
  try_catch
    (await bc_clearBusinessContext ;;
     result <- Auth.signOut ;;
     match result with
     | Some e => Throw (JsError (message e))
     | None => Ret tt
     end)
    (fun error =>
       try_catch (await bc_clearBusinessContext ;; setUser None)
                 (fun cleanupError => Ret tt) ;;
       Throw error).

End ContextVocabulary.

Section GuardVocabulary.
Import Guard.

(** The reason code the specification assigns to the outcome of the
    business-context resolution: [timeout] for the [TIMEOUT] error,
    [no-business] when no tenant was found, [error] for any other
    failure, and none when a tenant was found. *)
Definition claimed_reason (r : Reply (option string)) : option string :=
  match r with
  | Rejects (JsError m) =>
      if String.eqb m "TIMEOUT" then Some "timeout" else Some "error"
  | Rejects JsOther => Some "error"
  | Resolves b =>
      match truthy_opt b with
      | None => Some "no-business"
      | Some _ => None
      end
  end.

Definition registration (reason : string) : string :=
  "/register/business?reason=" ++ reason.

Definition claimed_decision (r : Reply (option string)) : Decision :=
  match claimed_reason r with
  | Some reason => Redirect (registration reason)
  | None => Stay
  end.

(** A rejection that carries the promise-based guard's own message. *)
Definition is_own_message (r : Reply (option string)) : bool :=
  match r with
  | Rejects (JsError m) => String.eqb m "No business found"
  | _ => false
  end.

End GuardVocabulary.

Section InterleavingVocabulary.
Import AuthStore Interleaving.

Definition invariant (c : Config) : Prop :=
  well_typed (store (fst c)) = true /\ Forall (fun p => Safe p) (snd c).

End InterleavingVocabulary.

(* ------------------------------------------------------------------ *)
(** ** More observations *)

Section MoreObservations.
Context {S : Type}.

(** How the update of the user's metadata settled, when [ev] is one. *)
Definition metadata_settled (ev : Event S)
  : option (Settle (GwResult (option User))) :=
  match ev with
  | EvCall c s =>
      match c in Call X
            return Settle X -> option (Settle (GwResult (option User))) with
      | sb_updateUser_data _ => fun s => Some s
      | _ => fun _ => None
      end s
  | _ => None
  end.

(** How [businessContext.setBusinessContext] settled, when [ev] is one. *)
Definition context_settled (ev : Event S) : option (Settle BcResult) :=
  match ev with
  | EvCall c s =>
      match c in Call X return Settle X -> option (Settle BcResult) with
      | bc_setBusinessContext _ => fun s => Some s
      | _ => fun _ => None
      end s
  | _ => None
  end.

(** How the logout routine settled, when [ev] is its call. *)
Definition logout_settled (ev : Event S) : option (Settle LogoutResult) :=
  match ev with
  | EvCall c s =>
      match c in Call X return Settle X -> option (Settle LogoutResult) with
      | enhancedLogout _ => fun s => Some s
      | _ => fun _ => None
      end s
  | _ => None
  end.

(** How [businessContext.clearBusinessContext] settled, when [ev] is one. *)
Definition clear_settled (ev : Event S) : option (Settle unit) :=
  match ev with
  | EvCall c s =>
      match c in Call X return Settle X -> option (Settle unit) with
      | bc_clearBusinessContext => fun s => Some s
      | _ => fun _ => None
      end s
  | _ => None
  end.

(** How the gateway's password-reset request settled, when [ev] is one. *)
Definition reset_settled (ev : Event S)
  : option (Settle (GwResult (option unit))) :=
  match ev with
  | EvCall c s =>
      match c in Call X
            return Settle X -> option (Settle (GwResult (option unit))) with
      | sb_resetPasswordForEmail _ => fun s => Some s
      | _ => fun _ => None
      end s
  | _ => None
  end.

(** The cached tenant lookup threw. *)
Definition lookup_threw (ev : Event S) : bool :=
  match ev with
  | EvSync c (Rejects _) =>
      match c with bc_getCurrentBusinessId => true | _ => false end
  | _ => false
  end.


(** A write, as opposed to any call. *)
Definition is_write (ev : Event S) : bool :=
  match ev with EvPut _ => true | _ => false end.

End MoreObservations.

(** What [auth.enhancedSignOut] makes of the logout routine's outcome. *)
Definition logout_verdict (r : Reply LogoutResult) : EnhancedResult :=
  match r with
  | Resolves result =>
      mkEnhanced
        (if lr_success result then None
         else match lr_error result with
              | Some e => Some e
              | None => Some (mkAuthError "Enhanced logout failed" (Some 500%N))
              end)
        (cleanupResults result)
  | Rejects ex =>
      mkEnhanced (Some (mkAuthError (message_or ex "Enhanced logout failed")
                                    (Some 500%N)))
                 None
  end.

(** A session query that yields no session: it failed, returned an error
    or returned none. *)
Definition no_session (r : Reply (GwResult (option Session))) : bool :=
  match r with
  | Resolves g => is_some (gw_error g) || negb (is_some (gw_data g))
  | Rejects _ => true
  end.

Section InitializedVocabulary.
Import AuthStore Interleaving.

(** The program never writes the status [initializing], whatever it
    reads and whatever the environment answers. *)
Fixpoint Leaves {A} (p : M A) : Prop :=
  match p with
  | Ret _ => True
  | Throw _ => True
  | Get k => forall s, Leaves (k s)
  | Put s k => status s <> initializing /\ Leaves k
  | Sync _ k => forall r, Leaves (k r)
  | Await _ k => forall r, Leaves (k r)
  | Race q _ _ k => Leaves q /\ forall r, Leaves (k r)
  end.

End InitializedVocabulary.

Section ContextMoreVocabulary.
Import AuthContext.

Definition context_credential_action (up : bool)
  : string -> string -> M (option AuthError) :=
  if up then ContextActions.signUp else ContextActions.signIn.

End ContextMoreVocabulary.

(* ------------------------------------------------------------------ *)
(** ** Cookies as the browser reports them *)




(* ------------------------------------------------------------------ *)
(** ** Concrete environments *)

Module Scenario.

Definition quiet : forall X, SyncCall X -> nat -> option Exn :=
  fun _ _ _ => None.

(** A gateway that never answers anything. *)
Definition silent : Env := mkEnv (fun _ _ _ => Never) quiet.

Definition no_cookies : Browser := mkBrowser true "" [].

Definition with_cookie : Browser :=
  mkBrowser true "theme=dark; sb-abcd-auth-token=eyJhbGciOi" [].

Definition page_load (b : Browser) : World AuthStore.AuthState :=
  mkWorld AuthStore.initial None 0 b 0%N 0.

Definition alice : User := mkUser "u1" (Some "a@b.com") None.

Definition alice_identity : AuthUser := mkAuthUser "u1" "a@b.com" None None.

Definition alice_on_b1 : AuthUser :=
  mkAuthUser "u1" "a@b.com" None (Some "b1").

(** A page load of a visitor whose tenant [b1] is cached. *)
Definition returning_visitor : World AuthStore.AuthState :=
  mkWorld AuthStore.initial (Some "b1") 0 with_cookie 0%N 0.

(** Alice is signed in on tenant [b1]. *)
Definition signed_in : World AuthStore.AuthState :=
  mkWorld (AuthStore.mkState AuthStore.authenticated (Some alice_on_b1)
                             (Some "b1") None false)
          (Some "b1") 1 with_cookie 0%N 0.

Definition invalid_credentials : AuthError :=
  mkAuthError "Invalid login credentials" (Some 400%N).

(** The gateway refuses the password. *)
Definition wrong_password : Env :=
  mkEnv (fun X c _ =>
           match c in Call X return Settle X with
           | sb_signInWithPassword _ _ =>
               After 120 (Resolves (mkGw (mkAuthData None None)
                                         (Some invalid_credentials)))
           | _ => Never
           end) quiet.

(** The resolver cannot clear the business context. *)
Definition clear_fails : Env :=
  mkEnv (fun X c _ =>
           match c in Call X return Settle X with
           | bc_clearBusinessContext =>
               After 15 (Rejects (JsError "storage unavailable"))
           | sb_signOut => After 80 (Resolves (mkGw tt None))
           | _ => Never
           end) quiet.

(** The gateway's sign-out request fails on the network after 40 ms. *)
Definition sign_out_rejected : Env :=
  mkEnv (fun X c _ =>
           match c in Call X return Settle X with
           | bc_clearBusinessContext => After 3 (Resolves tt)
           | sb_signOut => After 40 (Rejects (JsError "Failed to fetch"))
           | _ => Never
           end) quiet.

(** The gateway client throws at once. *)
Definition sign_out_throws : Env :=
  mkEnv (fun X c _ =>
           match c in Call X return Settle X with
           | bc_clearBusinessContext => After 3 (Resolves tt)
           | sb_signOut => After 0 (Rejects (JsError "boom"))
           | _ => Never
           end) quiet.

(** The gateway takes three seconds to sign out. *)
Definition sign_out_slow : Env :=
  mkEnv (fun X c _ =>
           match c in Call X return Settle X with
           | bc_clearBusinessContext => After 3 (Resolves tt)
           | sb_signOut => After 3000 (Resolves (mkGw tt None))
           | _ => Never
           end) quiet.

(** The gateway holds a live session for Alice. *)
Definition live_session : Env :=
  mkEnv (fun X c _ =>
           match c in Call X return Settle X with
           | sb_getSession =>
               After 35 (Resolves (mkGw (Some (mkSession alice)) None))
           | sb_signInWithPassword _ _ =>
               After 120 (Resolves (mkGw (mkAuthData (Some alice)
                                                     (Some (mkSession alice)))
                                         None))
           | bc_clearBusinessContext => After 3 (Resolves tt)
           | sb_signOut => After 80 (Resolves (mkGw tt None))
           | _ => Never
           end) quiet.

(** The resolver's lookup fails with an error that has no message. *)
Definition resolver_fails_silently : Env :=
  mkEnv (fun X c _ =>
           match c in Call X return Settle X with
           | bc_getCurrentBusinessIdAsync _ => After 20 (Rejects (JsError ""))
           | _ => Never
           end) quiet.

(** The resolver's lookup times out. *)
Definition resolver_times_out : Env :=
  mkEnv (fun X c _ =>
           match c in Call X return Settle X with
           | bc_getCurrentBusinessIdAsync _ =>
               After 5000 (Rejects (JsError "TIMEOUT"))
           | _ => Never
           end) quiet.

End Scenario.

(** ** Concrete runs *)

Section Runs.
Import AuthStore Guard.



Definition warm_start : Outcome unit :=
  run Scenario.live_session initialize
      (Scenario.page_load Scenario.with_cookie).

Definition cold_start : Outcome unit :=
  run Scenario.silent initialize (Scenario.page_load Scenario.no_cookies).

Definition rejected_sign_out : Outcome (option AuthError) :=
  run Scenario.sign_out_rejected Auth.signOut Scenario.signed_in.

Definition thrown_sign_out : Outcome (option AuthError) :=
  run Scenario.sign_out_throws Auth.signOut Scenario.signed_in.

Definition hook_at_mount : World HookState :=
  mkWorld hook_initial None 0 Scenario.with_cookie 0%N 0.

Definition silent_failure : Outcome unit :=
  run Scenario.resolver_fails_silently
      (loadBusinessContext true (Some Scenario.alice_identity) (Some true) None)
      hook_at_mount.

Definition signing_out_alice : AuthState :=
  mkState signing_out (Some Scenario.alice_identity) None None true.

End Runs.

(* ------------------------------------------------------------------ *)
(** ** More concrete environments *)

Module Cases.
Import Scenario.

Definition user_not_found : AuthError :=
  mkAuthError "User not found" (Some 404%N).

(** The gateway refuses to update the user's metadata. *)
Definition metadata_refused : Env :=
  mkEnv (fun X c _ =>
           match c in Call X return Settle X with
           | sb_updateUser_data _ =>
               After 60 (Resolves (mkGw None (Some user_not_found)))
           | bc_setBusinessContext _ => After 10 (Resolves (mkBcResult true None))
           | _ => Never
           end) quiet.

(** The metadata update and the tenant context both succeed. *)
Definition tenant_set : Env :=
  mkEnv (fun X c _ =>
           match c in Call X return Settle X with
           | sb_updateUser_data _ => After 60 (Resolves (mkGw (Some alice) None))
           | bc_setBusinessContext _ => After 10 (Resolves (mkBcResult true None))
           | _ => Never
           end) quiet.

(** The gateway cannot be reached; the tenant context is local. *)
Definition offline : Env :=
  mkEnv (fun X c _ =>
           match c in Call X return Settle X with
           | bc_clearBusinessContext => After 3 (Resolves tt)
           | bc_setBusinessContext _ => After 10 (Resolves (mkBcResult true None))
           | bc_getCurrentBusinessIdAsync _ => After 20 (Resolves (Some "b1"))
           | enhancedLogout _ => Never
           | _ => After 30 (Rejects (JsError "Failed to fetch"))
           end) quiet.

(** The gateway knows the user. *)
Definition user_known : Env :=
  mkEnv (fun X c _ =>
           match c in Call X return Settle X with
           | sb_getUser => After 30 (Resolves (mkGw (Some alice) None))
           | _ => Never
           end) quiet.

(** A validator that fails with an exception. *)
Definition validator_throws {S} : string -> string -> Prog S AccessResult :=
  fun _ _ => Throw (JsError "permission denied").

(** A validator that denies access without giving a reason. *)
Definition validator_denies {S} : string -> string -> Prog S AccessResult :=
  fun _ _ => Ret (mkAccess false None).

(** The logout routine completes. *)
Definition logout_succeeds : Env :=
  mkEnv (fun X c _ =>
           match c in Call X return Settle X with
           | enhancedLogout _ =>
               After 50 (Resolves (mkLogoutResult true None
                                     (Some [("businessContext", true)])))
           | bc_clearBusinessContext => After 3 (Resolves tt)
           | _ => Never
           end) quiet.

(** The logout routine reports a failure and the tenant context cannot
    be cleared either. *)
Definition logout_and_cleanup_fail : Env :=
  mkEnv (fun X c _ =>
           match c in Call X return Settle X with
           | enhancedLogout _ =>
               After 50 (Resolves (mkLogoutResult false None None))
           | bc_clearBusinessContext =>
               After 15 (Rejects (JsError "storage unavailable"))
           | _ => Never
           end) quiet.

(** A live session, but the cached tenant cannot be read. *)
Definition cache_unreadable : Env :=
  mkEnv (answer live_session)
        (fun X c _ =>
           match c with
           | bc_getCurrentBusinessId => Some (JsError "storage unavailable")
           | _ => None
           end).

Definition carol : User :=
  mkUser "u3" (Some "c@d.com") (Some (mkMetadata (Some "Carol") (Some "b7"))).

(** The gateway accepts Carol's password, whose metadata name tenant
    [b7]; setting that tenant's context throws. *)
Definition context_unavailable : Env :=
  mkEnv (fun X c _ =>
           match c in Call X return Settle X with
           | sb_signInWithPassword _ _ =>
               After 120 (Resolves (mkGw (mkAuthData (Some carol)
                                                     (Some (mkSession carol)))
                                         None))
           | bc_setBusinessContext _ =>
               After 10 (Rejects (JsError "tenant service unavailable"))
           | _ => Never
           end) quiet.

(** The gateway sends the recovery mail. *)
Definition mail_sent : Env :=
  mkEnv (fun X c _ =>
           match c in Call X return Settle X with
           | sb_resetPasswordForEmail _ =>
               After 90 (Resolves (mkGw (Some tt) None))
           | _ => Never
           end) quiet.

(** The resolver finds tenant [b1]. *)
Definition tenant_found : Env :=
  mkEnv (fun X c _ =>
           match c in Call X return Settle X with
           | bc_getCurrentBusinessIdAsync _ => After 20 (Resolves (Some "b1"))
           | _ => Never
           end) quiet.

(** A [decodeURIComponent] for return URLs: [%zz] is malformed, any
    other text stands for itself. *)
Definition decode (s : string) : Reply string :=
  if String.eqb s "%zz" then Rejects (JsError "URI malformed") else Resolves s.

(** A validation that asks for an email. *)
Definition needs_email (email password : string)
  : option (list (string * string)) :=
  if truthy email then None else Some [("email", "El email es requerido")].

(** The provider, mounted on a page that holds the cookie. *)
Definition provider (mounted : bool) : World AuthContext.State :=
  mkWorld (AuthContext.mkState None true false mounted)
          None 0 with_cookie 0%N 0.

(** The provider with Alice signed in. *)
Definition provider_signed_in : World AuthContext.State :=
  mkWorld (AuthContext.mkState (Some alice_on_b1) false true true)
          (Some "b1") 1 with_cookie 0%N 0.

(** The login view on a page that holds the cookie. *)
Definition login_view : World LoginPage.State :=
  mkWorld LoginPage.initial None 0 with_cookie 0%N 0.

(** The login form as typed in. *)
Definition login_form (email password : string) : World LoginForm.State :=
  mkWorld (LoginForm.mkState (LoginForm.mkLoginData email password) [] false)
          None 0 no_cookies 0%N 0.

(** A guarded page that requires a tenant, before the resolver answers. *)
Definition guarded_page : World bool :=
  mkWorld false None 0 with_cookie 0%N 0.

(** The server, where there is no window. *)
Definition server : World unit :=
  mkWorld tt None 0 (mkBrowser false "" []) 0%N 0.

End Cases.

(** The runs the properties are tried on. *)
Section MoreRuns.
Import AuthStore.

Definition refused_tenant_update : Outcome (S:=AuthState) (option AuthError) :=
  run Cases.metadata_refused (AuthBusiness.setBusinessContext "b2")
      Scenario.signed_in.

Definition tenant_update : Outcome (S:=AuthState) (option AuthError) :=
  run Cases.tenant_set (AuthBusiness.setBusinessContext "b2")
      Scenario.signed_in.

Definition failed_user_lookup
  : Outcome (S:=AuthState) (AuthResult (option User)) :=
  run Cases.offline Auth.getUser Scenario.signed_in.

Definition user_lookup : Outcome (S:=AuthState) (AuthResult (option User)) :=
  run Cases.user_known Auth.getUser Scenario.signed_in.

Definition full_logout : Outcome (S:=AuthState) EnhancedResult :=
  run Cases.logout_succeeds (enhancedSignOut None) Scenario.signed_in.

Definition stuck_logout : Outcome (S:=AuthState) EnhancedResult :=
  run Cases.logout_and_cleanup_fail (enhancedSignOut None) Scenario.signed_in.

Definition tenant_switch : Outcome (S:=AuthState) (option AuthError) :=
  run Cases.tenant_set (setBusinessContext "b2") Scenario.signed_in.

Definition offline_refresh : Outcome (S:=AuthState) unit :=
  run Cases.offline refreshSession Scenario.signed_in.

Definition blind_refresh : Outcome (S:=AuthState) unit :=
  run Cases.cache_unreadable refreshSession Scenario.signed_in.

Definition blind_start : Outcome (S:=AuthState) unit :=
  run Cases.cache_unreadable initialize Scenario.returning_visitor.

Definition provider_wrong_password
  : Outcome (S:=AuthContext.State) (option AuthError) :=
  run Scenario.wrong_password (context_credential_action false "a@b.com" "wrong")
      (Cases.provider true).

Definition carol_signs_in : Outcome (S:=AuthState) (AuthResult AuthData) :=
  run Cases.context_unavailable (Auth.signIn "c@d.com" "secret")
      (Scenario.page_load Scenario.no_cookies).

Definition provider_logout : Outcome (S:=AuthContext.State) EnhancedResult :=
  run Cases.logout_succeeds (ContextActions.enhancedSignOut None)
      Cases.provider_signed_in.


Definition refused_login : Outcome (S:=LoginForm.State) unit :=
  run Scenario.wrong_password
      (LoginForm.handleSubmit Cases.decode Cases.needs_email None)
      (Cases.login_form "a@b.com" "wrong").


Definition recovery_request : Outcome (S:=LoginForm.State) unit :=
  run Cases.mail_sent LoginForm.handleForgotPassword
      (Cases.login_form "a@b.com" "").

Definition visit_with_bad_return_url : Outcome (S:=LoginPage.State) unit :=
  run Scenario.live_session
      (LoginPage.checkAuthentication Cases.decode (Some "%zz"))
      Cases.login_view.

Definition guarded_visit : Outcome (S:=bool) unit :=
  run Cases.tenant_found
      (Guard.promise_guard false (Some Scenario.alice_identity) true
                           "/login" "/citas")
      Cases.guarded_page.

Definition landing : Outcome (S:=unit) unit :=
  run Scenario.live_session HomePage.Home Cases.server.

End MoreRuns.

Section MoreConfigs.
Import AuthStore Interleaving.

(** The store after [_setUnauthenticated()] on a fresh page. *)
Definition signed_out_config : Config :=
  (put_store (mkState unauthenticated None None None false)
             (fst (boot Scenario.no_cookies None)),
   [Ret tt]).

(** The same page once a sign-in has written its first state. *)
Definition signing_in_world : World AuthState :=
  put_store (mkState authenticating None None None true) (fst signed_out_config).

End MoreConfigs.

(* ------------------------------------------------------------------ *)
(** * Properties *)

(** ** Laws of [run] *)

Section RunFacts.
Context {S : Type}.
Variable env : Env.

Lemma emit_all_nil {A} (o : Outcome (S:=S) A) : emit_all [] o = o.
Proof. destruct o as [[c w] evs]. reflexivity. Qed.

Lemma emit_all_cons {A} e es (o : Outcome (S:=S) A) :
  emit_all (e :: es) o = emit e (emit_all es o).
Proof. destruct o as [[c w] evs]. reflexivity. Qed.

Lemma emit_all_app {A} es1 es2 (o : Outcome (S:=S) A) :
  emit_all (es1 ++ es2) o = emit_all es1 (emit_all es2 o).
Proof.
  destruct o as [[c w] evs]. cbn. now rewrite app_assoc.
Qed.

Lemma and_then_emit {A B} e (o : Outcome A) (f : A -> World S -> Outcome B) :
  and_then (emit e o) f = emit e (and_then o f).
Proof.
  destruct o as [[c w] evs]. destruct c; cbn; try reflexivity.
  now rewrite emit_all_cons.
Qed.

Lemma and_then_emit_all {A B} es (o : Outcome A)
  (f : A -> World S -> Outcome B) :
  and_then (emit_all es o) f = emit_all es (and_then o f).
Proof.
  destruct o as [[c w] evs]. destruct c; cbn; try reflexivity.
  now rewrite emit_all_app.
Qed.

Lemma or_else_emit {A} e (o : Outcome A) (h : Exn -> World S -> Outcome A) :
  or_else (emit e o) h = emit e (or_else o h).
Proof.
  destruct o as [[c w] evs]. destruct c; cbn; try reflexivity.
  now rewrite emit_all_cons.
Qed.

Lemma or_else_emit_all {A} es (o : Outcome A)
  (h : Exn -> World S -> Outcome A) :
  or_else (emit_all es o) h = emit_all es (or_else o h).
Proof.
  destruct o as [[c w] evs]. destruct c; cbn; try reflexivity.
  now rewrite emit_all_app.
Qed.

(** Sequencing runs the first program, then the second in the world the
    first one left. *)
Lemma run_bind {A B} (p : Prog S A) :
  forall (f : A -> Prog S B) w,
    run env (bind p f) w = and_then (run env p w) (fun a => run env (f a)).
Proof.
  induction p as [A a | A e | A k IH | A s k IH | A X c k IH | A X c k IH
                 | A X q IHq ms e k IH]; intros f w; cbn.
  - now rewrite emit_all_nil.
  - reflexivity.
  - apply IH.
  - now rewrite IH, and_then_emit.
  - now rewrite IH, and_then_emit.
  - destruct (answer env c (ticks w)); [| reflexivity].
    now rewrite IH, and_then_emit.
  - destruct (run env q w) as [[c w'] evs].
    rewrite and_then_emit_all. f_equal.
    destruct c; [destruct (_ <? _)%N | destruct (_ <? _)%N |]; apply IH.
Qed.

(** A handler runs exactly when the body throws. *)
Lemma run_try_catch {A} (p : Prog S A) :
  forall (h : Exn -> Prog S A) w,
    run env (try_catch p h) w = or_else (run env p w) (fun e => run env (h e)).
Proof.
  induction p as [A a | A e | A k IH | A s k IH | A X c k IH | A X c k IH
                 | A X q IHq ms e k IH]; intros h w; cbn.
  - reflexivity.
  - now rewrite emit_all_nil.
  - apply IH.
  - now rewrite IH, or_else_emit.
  - now rewrite IH, or_else_emit.
  - destruct (answer env c (ticks w)); [| reflexivity].
    now rewrite IH, or_else_emit.
  - destruct (run env q w) as [[c w'] evs].
    rewrite or_else_emit_all. f_equal.
    destruct c; [destruct (_ <? _)%N | destruct (_ <? _)%N |]; apply IH.
Qed.

Lemma and_finally_emit {A} e (o : Outcome A) (f : World S -> Outcome unit) :
  and_finally (emit e o) f = emit e (and_finally o f).
Proof.
  destruct o as [[c w] evs]. destruct c; cbn; try reflexivity;
    now rewrite emit_all_cons.
Qed.

Lemma and_finally_emit_all {A} es (o : Outcome A)
  (f : World S -> Outcome unit) :
  and_finally (emit_all es o) f = emit_all es (and_finally o f).
Proof.
  destruct o as [[c w] evs]. destruct c; cbn; try reflexivity;
    now rewrite emit_all_app.
Qed.

(** The [finally] block runs on both exits of a settled body, and not at
    all while the body is pending. *)
Lemma run_try_finally {A} (p : Prog S A) :
  forall (f : Prog S unit) w,
    run env (try_finally p f) w = and_finally (run env p w) (run env f).
Proof.
  induction p as [A a | A e | A k IH | A s k IH | A X c k IH | A X c k IH
                 | A X q IHq ms e k IH]; intros f w; cbn.
  - now rewrite run_bind, emit_all_nil.
  - now rewrite run_bind, emit_all_nil.
  - apply IH.
  - now rewrite IH, and_finally_emit.
  - now rewrite IH, and_finally_emit.
  - destruct (answer env c (ticks w)); [| reflexivity].
    now rewrite IH, and_finally_emit.
  - destruct (run env q w) as [[c w'] evs].
    rewrite and_finally_emit_all. f_equal.
    destruct c; [destruct (_ <? _)%N | destruct (_ <? _)%N |]; apply IH.
Qed.

End RunFacts.

Lemma add_sub_left (a b : N) : (a + b - a = b)%N.
Proof. lia. Qed.

Ltac simp_run :=
  cbn -[split trim startsWith includes existsb String.eqb
        N.ltb N.add N.sub N.leb];
  rewrite ?add_sub_left.

Ltac case_run :=
  match goal with
  | |- context [match sync_throws ?e ?c ?n with _ => _ end] =>
      destruct (sync_throws e c n)
  | |- context [match answer ?e ?c ?n with _ => _ end] =>
      destruct (answer e c n) as [? [?|?]|]
  | |- context [of_reply ?r] =>
      lazymatch r with
      | Resolves _ => fail
      | Rejects _ => fail
      | _ => destruct r eqn:?
      end
  | |- context [if ?b then _ else _] =>
      lazymatch b with
      | context [run] => fail
      | _ => destruct b eqn:?
      end
  | |- context [match ?x with _ => _ end] =>
      lazymatch x with
      | context [run] => fail
      | _ => destruct x eqn:?
      end
  end.

(** Evaluate a run, splitting on everything the environment decides. *)
Ltac crush_run := simp_run; repeat (case_run; simp_run).

(** Find out which event of a computed run a hypothesis speaks of. *)
Ltac pin_observed :=
  repeat match goal with H : _ \/ _ |- _ => destruct H end;
  try discriminate; try contradiction;
  repeat match goal with
    | H : Some _ = Some _ |- _ => first [injection H; clear H; intros | clear H]
    end;
  subst.

Lemma normalize_id e : Auth.normalize e = e.
Proof. destruct e; reflexivity. Qed.

(** ** The runtime helpers on examples *)

Example split_cookies :
  split ";" "theme=dark; sb-abcd-auth-token=x;" =
  ["theme=dark"; " sb-abcd-auth-token=x"; ""].
Proof. reflexivity. Qed.

Example split_empty : split ";" "" = [""].
Proof. reflexivity. Qed.

Example trim_both_ends : trim "  sb-abcd-auth-token=x " = "sb-abcd-auth-token=x".
Proof. reflexivity. Qed.

Example includes_inside : includes " sb-abcd-auth-token=x" "-auth-token" = true.
Proof. reflexivity. Qed.

Example or_default_empty_email : or_default (Some "") "" = "" /\
                                 truthy_opt (Some "") = None.
Proof. split; reflexivity. Qed.

(** ** The local marker check *)

(** [isLikelyAuthenticated] always returns, and touches nothing outside
    the browser. *)
Lemma isLikelyAuthenticated_local {S} env (w : World S) :
  exists b w' evs,
    run env Auth.isLikelyAuthenticated w = (Done b, w', evs) /\
    store w' = store w /\ cachedBusinessId w' = cachedBusinessId w /\
    subscriptions w' = subscriptions w /\ clock w' = clock w /\
    local_only evs = true /\ writes evs = [] /\
    existsb is_subscription evs = false.
Proof.
  unfold Auth.isLikelyAuthenticated, call, sync_reply.
  crush_run.
  all: do 3 eexists; repeat split; reflexivity.
Qed.


(* ------------------------------------------------------------------ *)
(** ** The store, one action at a time *)

Section StoreActions.
Import AuthStore.

(** C9: when the local marker check is negative, [initialize] resolves
    with status [unauthenticated], no user and no error, and the run
    contains no request at all: neither [getSession] nor anything else
    leaves the browser. *)
Theorem initialize_without_marker env (w : World AuthState) :
  completion (run env Auth.isLikelyAuthenticated w) = Done false ->
  exists w' evs,
    run env initialize w = (Done tt, w', evs) /\
    store w' = mkState unauthenticated None None None false /\
    local_only evs = true.
Proof.
  intros H.
  destruct (isLikelyAuthenticated_local env w)
    as (b & w1 & e1 & Hrun & _ & _ & _ & _ & Hloc & _).
  rewrite Hrun in H. cbn in H. injection H as ->.
  unfold initialize. rewrite run_try_catch, run_bind, Hrun. cbn.
  do 2 eexists. repeat split.
  unfold local_only in *. rewrite forallb_app, Hloc. reflexivity.
Qed.

Lemma initialize_without_marker_witness :
  completion (run Scenario.silent Auth.isLikelyAuthenticated
                  (Scenario.page_load Scenario.no_cookies)) = Done false
  /\ exists w' evs,
      run Scenario.silent initialize (Scenario.page_load Scenario.no_cookies)
      = (Done tt, w', evs) /\
      store w' = mkState unauthenticated None None None false /\
      local_only evs = true.
Proof.
  split; [reflexivity |].
  apply (initialize_without_marker Scenario.silent
           (Scenario.page_load Scenario.no_cookies)).
  reflexivity.
Defined.



(** An action that reports no error leaves the store waiting for the
    change-event listener. *)
Lemma signIn_success_waits_for_listener env (w : World AuthState)
  email password w' evs :
  run env (signIn email password) w = (Done None, w', evs) ->
  store w' = mkState authenticating None None None true.
Proof.
  unfold signIn, Auth.signIn, await. crush_run.
  all: intros [= <-]; try reflexivity; try discriminate.
  all: try (intros; subst; reflexivity).
Qed.

End StoreActions.

Section StoreSignOut.
Import AuthStore.



(** The signed-in world of the examples is what [initialize] leaves for
    a returning visitor with a live session. *)
Example signed_in_arises :
  let w := final (run Scenario.live_session initialize
                      Scenario.returning_visitor) in
  store w = store Scenario.signed_in /\
  cachedBusinessId w = cachedBusinessId Scenario.signed_in /\
  subscriptions w = subscriptions Scenario.signed_in.
Proof. vm_compute. repeat split. Qed.


(** What is left behind in that run. *)
Lemma signOut_failed_cleanup_state :
  let o := run Scenario.clear_fails signOut Scenario.signed_in in
  completion o = Raised (JsError "storage unavailable") /\
  status (store (final o)) = signing_out /\
  user (store (final o)) = Some Scenario.alice_on_b1 /\
  cachedBusinessId (final o) = Some "b1".
Proof. repeat split. Qed.

(** [signOut] returns normally exactly when the facade reports no error,
    and throws otherwise. *)
Lemma signOut_gateway_error_is_thrown env (w : World AuthState) c w' evs :
  run env signOut w = (c, w', evs) ->
  forall ms e,
    In (Some (After ms (Resolves (mkGw tt (Some e)))))
       (map sign_out_settled evs) ->
    (ms <? 2000)%N = true ->
    settled c = true ->
    c = Raised (JsError (message e)).
Proof.
  revert c w' evs.
  unfold signOut, begin_sign_out, Auth.signOut, await, race, get, set.
  crush_run.
  all: intros c w' evs [= <- <- <-] ms' e' Hin Hms Hs; cbn in Hin, Hs;
    try discriminate.
  all: repeat match goal with H : _ \/ _ |- _ => destruct H end;
    try discriminate; try contradiction.
  all: match goal with H : Some _ = Some _ |- _ => injection H as ? ? end.
  all: subst; cbn in *; congruence.
Qed.

End StoreSignOut.

Section ContextSignOut.
Import AuthContext.

Lemma signOut_body_keeps_state env (w : World State) w' evs :
  run env signOut_body w = (Done tt, w', evs) ->
  store w' = store w.
Proof.
  revert w' evs.
  unfold signOut_body, setUser, Auth.signOut, await, race, get, set.
  crush_run.
  all: intros w' evs H.
  all: try discriminate H.
  all: injection H as <- <-; reflexivity.
Qed.

(** The context-based [signOut] does not reset the user when the gateway
    reports success: it leaves that to the change-event listener. *)
Lemma context_signOut_leaves_user env (w : World State) w' evs :
  run env signOut w = (Done tt, w', evs) ->
  user (store w') = user (store w) /\ isLoading (store w') = false.
Proof.
  change signOut
    with (setIsLoading true ;; try_finally signOut_body (setIsLoading false)).
  rewrite run_bind.
  change (run env (setIsLoading true) w)
    with (Done tt,
          put_store (mkState (user (store w)) true (isInitialized (store w))
                             (mounted (store w))) w,
          [EvPut (mkState (user (store w)) true (isInitialized (store w))
                          (mounted (store w)))]).
  cbv beta iota zeta delta [and_then emit_all app].
  rewrite run_try_finally.
  destruct (run env signOut_body _) as [[c w1] e1] eqn:E.
  destruct c as [[] | ex |]; cbn; try discriminate.
  apply signOut_body_keeps_state in E.
  intros [= <- <-]. cbn. rewrite E. split; reflexivity.
Qed.

End ContextSignOut.

Section StoreInitialize.
Import AuthStore.

(** C6, as amended: started while loading, and with every request of the
    run answered, [initialize] returns with [isLoading] false, and
    [isLoading] went from true to false exactly once, on each branch:
    negative marker, session-check error, empty session, live session,
    thrown error. *)
Theorem initialize_clears_loading_once env (w : World AuthState) c w' evs :
  run env initialize w = (c, w', evs) ->
  isLoading (store w) = true ->
  all_answered evs = true ->
  c = Done tt /\
  isLoading (store w') = false /\
  falling_edges (loading_history w evs) = 1.
Proof.
  revert c w' evs.
  unfold initialize, Auth.isLikelyAuthenticated, Auth.getSession,
    Auth.onAuthStateChange, await, call, sync_reply, set, loading_history.
  crush_run.
  all: intros c w' evs [= <- <- <-] Hl Ha; cbn in Ha; try discriminate.
  all: cbn; rewrite Hl; repeat split; reflexivity.
Qed.

Lemma initialize_clears_loading_once_witness :
  isLoading (store (Scenario.page_load Scenario.with_cookie)) = true /\
  all_answered (events warm_start) = true /\
  completion warm_start = Done tt /\
  isLoading (store (final warm_start)) = false /\
  falling_edges (loading_history (Scenario.page_load Scenario.with_cookie)
                                 (events warm_start)) = 1.
Proof.
  split; [reflexivity |]. split; [vm_compute; reflexivity |].
  apply (@initialize_clears_loading_once Scenario.live_session
           (Scenario.page_load Scenario.with_cookie)
           (completion warm_start) (final warm_start) (events warm_start));
    vm_compute; reflexivity.
Defined.

(** With the marker, a valid session for [u1] and no cached business
    id, the store ends authenticated without business id. *)
Example warm_start_state :
  store (final warm_start)
  = mkState authenticated (Some Scenario.alice_identity) None None false /\
  subscriptions (final warm_start) = 1.
Proof. vm_compute. split; reflexivity. Qed.

(** C6, as stated, fails: [initialize] awaits the session query without a
    timer, so with the marker present and a gateway that never answers it
    never settles and [isLoading] stays true. *)
Lemma initialize_can_stay_loading :
  ~ (forall env (w : World AuthState),
        isLoading (store w) = true ->
        settled (completion (run env initialize w)) = true /\
        isLoading (store (final (run env initialize w))) = false /\
        falling_edges (loading_history w (events (run env initialize w))) = 1).
Proof.
  intros claim.
  destruct (claim Scenario.silent (Scenario.page_load Scenario.with_cookie)
                  eq_refl) as [H _].
  vm_compute in H. discriminate H.
Qed.

(** C3 fails on the code: without the local marker, [initialize] settles
    without having subscribed to the gateway's change-event stream. *)
Theorem cold_start_never_subscribes :
  completion cold_start = Done tt /\
  status (store (final cold_start)) = unauthenticated /\
  subscriptions (final cold_start) = 0 /\
  existsb is_subscription (events cold_start) = false.
Proof. vm_compute. repeat split. Qed.

(** Across all branches: a settled [initialize] has subscribed exactly
    when it ended [authenticated]. *)
Lemma initialize_subscribes_with_session_only env (w : World AuthState)
  w' evs :
  run env initialize w = (Done tt, w', evs) ->
  (existsb is_subscription evs = true <-> status (store w') = authenticated)
  /\ subscriptions w' =
     subscriptions w + (if existsb is_subscription evs then 1 else 0).
Proof.
  revert w' evs.
  unfold initialize, Auth.isLikelyAuthenticated, Auth.getSession,
    Auth.onAuthStateChange, await, call, sync_reply, set.
  crush_run.
  all: intros w' evs [= <- <-]; cbn.
  all: rewrite ?Nat.add_0_r, ?Nat.add_1_r.
  all: split; [split; intros; (reflexivity || discriminate) | reflexivity].
Qed.

(** The consequence: after a start without marker, a successful sign-in
    leaves the store in [authenticating], and no gateway event can reach
    it. *)
Lemma cold_start_sign_in_is_never_settled :
  let o := run Scenario.live_session (initialize ;; signIn "a@b.com" "secret")
               (Scenario.page_load Scenario.no_cookies) in
  completion o = Done None /\
  store (final o) = mkState authenticating None None None true /\
  forall s, Interleaving.enabled (Interleaving.gateway_event s) (final o) = false.
Proof. vm_compute. repeat split. Qed.

End StoreInitialize.

Section ContextInitialize.
Import AuthContext.

(** The context-based sibling subscribes after the session check whether
    or not a session was found, and has the same gap without marker. *)
Lemma initializeAuth_subscribes_after_check env (w : World State) c w' evs :
  run env initializeAuth w = (c, w', evs) ->
  all_answered evs = true ->
  (forall X (c : SyncCall X) n, sync_throws env c n = None) ->
  existsb is_subscription evs
  = is_some (find (fun o => is_some o) (map session_settled evs)).
Proof.
  intros Hrun Ha quiet. revert Hrun Ha.
  revert c w' evs.
  unfold initializeAuth, Auth.isLikelyAuthenticated, Auth.getSession,
    Auth.onAuthStateChange, when_mounted, setUser, setIsInitialized,
    setIsLoading, await, call, sync_reply, get, set.
  simp_run.
  repeat (rewrite ?quiet; first [case_run | progress simp_run]).
  all: intros c w' evs [= <- <- <-] Ha; cbn in Ha; try discriminate.
  all: reflexivity.
Qed.

(** The [finally] block: while mounted and with every request answered,
    [initializeAuth] returns with [isLoading] false and [isInitialized]
    true. *)
Lemma initializeAuth_finally env (w : World State) c w' evs :
  run env initializeAuth w = (c, w', evs) ->
  mounted (store w) = true ->
  all_answered evs = true ->
  c = Done tt /\ isLoading (store w') = false /\ isInitialized (store w') = true.
Proof.
  revert c w' evs.
  unfold initializeAuth, Auth.isLikelyAuthenticated, Auth.getSession,
    Auth.onAuthStateChange, when_mounted, setUser, setIsInitialized,
    setIsLoading, await, call, sync_reply, get, set.
  intros c w' evs Hrun Hm. revert Hrun.
  simp_run.
  repeat (rewrite ?Hm; first [case_run | progress simp_run]).
  all: intros [= <- <- <-] Ha; cbn in Ha; try discriminate.
  all: repeat split; reflexivity.
Qed.

End ContextInitialize.

(* ------------------------------------------------------------------ *)
(** ** The facade *)

Section Facade.
Context {S : Type}.

(** Once the local cleanup has completed and the request is issued,
    [auth.signOut] returns, and what it returns depends on the request
    alone. *)
Lemma facade_signOut_result env (w : World S) c w' evs s :
  run env Auth.signOut w = (c, w', evs) ->
  In (Some s) (map sign_out_settled evs) ->
  c = Done (sign_out_verdict s).
Proof.
  revert c w' evs.
  unfold Auth.signOut, await, race, sign_out_verdict.
  crush_run.
  all: intros c w' evs [= <- <- <-] Hin; cbn in Hin.
  all: repeat match goal with H : _ \/ _ |- _ => destruct H end;
    try discriminate; try contradiction.
  all: match goal with H : Some _ = Some _ |- _ => try (injection H; intros) end.
  all: subst; rewrite ?normalize_id; cbn; congruence.
Qed.

(** The part of C5 that holds: a sign-out request that has not settled
    within 2000 ms counts as success. *)
Lemma facade_signOut_timeout_is_success env (w : World S) c w' evs s :
  run env Auth.signOut w = (c, w', evs) ->
  In (Some s) (map sign_out_settled evs) ->
  match s with After ms _ => (2000 <=? ms)%N | Never => true end = true ->
  c = Done None.
Proof.
  intros Hrun Hin Hlate.
  rewrite (@facade_signOut_result env w c w' evs s Hrun Hin).
  destruct s as [ms [g | ex] |]; cbn; try reflexivity.
  apply N.leb_le in Hlate.
  destruct (N.ltb_spec ms 2000); [lia | reflexivity].
Qed.

(** An error the gateway returns in time is passed on. *)
Lemma facade_signOut_returned_error env (w : World S) c w' evs ms e :
  run env Auth.signOut w = (c, w', evs) ->
  In (Some (After ms (Resolves (mkGw tt (Some e))))) (map sign_out_settled evs) ->
  (ms <? 2000)%N = true ->
  c = Done (Some e).
Proof.
  intros Hrun Hin Hms.
  rewrite (@facade_signOut_result env w c w' evs _ Hrun Hin). cbn.
  now rewrite Hms.
Qed.

(** The sign-out request never holds [auth.signOut] longer than 2000 ms
    beyond the local cleanup. *)
Lemma facade_signOut_bounded env (w : World S) c w' evs ms :
  run env Auth.signOut w = (c, w', evs) ->
  answer env bc_clearBusinessContext (ticks w) = After ms (Resolves tt) ->
  settled c = true /\ (clock w' <= clock w + ms + 2000)%N.
Proof.
  intros Hrun Hclear. revert Hrun.
  unfold Auth.signOut, await, race. simp_run. rewrite Hclear.
  crush_run.
  all: intros [= <- <- <-]; cbn; split; try reflexivity.
  all: repeat match goal with
         | H : (_ <? _)%N = true |- _ => apply N.ltb_lt in H
         | H : (_ <? _)%N = false |- _ => apply N.ltb_ge in H
         end; lia.
Qed.

End Facade.

(** C5 fails on the code: the sign-out request is rejected by the network
    after 40 ms, well before the 2000 ms deadline, and [auth.signOut]
    still returns [{ error: null }]. *)
Theorem facade_signOut_reports_rejection_as_success :
  In (Some (After 40%N (Rejects (JsError "Failed to fetch"))))
     (map sign_out_settled (events rejected_sign_out)) /\
  completion rejected_sign_out = Done None.
Proof. vm_compute. split; [right; left |]; reflexivity. Qed.

(** A gateway that needs three seconds: the timer fires after two, and
    the sign-out counts as done. *)
Example slow_sign_out_is_success :
  let o := run Scenario.sign_out_slow Auth.signOut Scenario.signed_in in
  completion o = Done None /\ clock (final o) = 2003%N /\
  cachedBusinessId (final o) = None.
Proof. vm_compute. repeat split. Qed.

(** C10 fails on the code for [signOut]: the gateway call throws
    [Error('boom')] and the result carries no error at all, where the
    other operations answer with the message and status 500. *)
Theorem facade_signOut_loses_exception :
  completion thrown_sign_out = Done None /\
  completion thrown_sign_out
  <> Done (Some (Auth.unexpected (JsError "boom") "Logout failed")).
Proof. vm_compute. split; [reflexivity | discriminate]. Qed.

Section FacadeTotal.
Context {S : Type}.

(** The part of C10 that holds for all ten operations: none of them
    throws, whatever the gateway does. *)
Lemma facade_never_throws env (w : World S) op : throws env w op = false.
Proof.
  destruct op; unfold throws, completion, Auth.signUp, Auth.signIn,
    Auth.signOut, Auth.enhancedSignOut, Auth.getSession, Auth.getUser,
    Auth.resetPassword, Auth.updatePassword, Auth.verifyEmail,
    Auth.resendVerificationEmail, await, race.
  all: crush_run; reflexivity.
Qed.

(** And for the nine operations other than [signOut]: a gateway call
    that throws becomes a result with the exception's message, status
    500 and empty data. *)
Lemma facade_exception_reported env (w : World S) ms ex :
  (forall e p, answer env (sb_signUp e p) (ticks w) = After ms (Rejects ex) ->
     completion (run env (Auth.signUp e p) w)
     = Done (mkAuthResult (mkAuthData None None)
               (Some (mkAuthError (message_or ex "Registration failed")
                                  (Some 500%N))))) /\
  (forall e p,
     answer env (sb_signInWithPassword e p) (ticks w) = After ms (Rejects ex) ->
     completion (run env (Auth.signIn e p) w)
     = Done (mkAuthResult (mkAuthData None None)
               (Some (mkAuthError (message_or ex "Login failed") (Some 500%N))))) /\
  (forall c, answer env (enhancedLogout c) (ticks w) = After ms (Rejects ex) ->
     completion (run env (Auth.enhancedSignOut c) w)
     = Done (mkEnhanced
               (Some (mkAuthError (message_or ex "Enhanced logout failed")
                                  (Some 500%N))) None)) /\
  (answer env sb_getSession (ticks w) = After ms (Rejects ex) ->
     completion (run env Auth.getSession w)
     = Done (mkAuthResult None
               (Some (mkAuthError (message_or ex "Session retrieval failed")
                                  (Some 500%N))))) /\
  (answer env sb_getUser (ticks w) = After ms (Rejects ex) ->
     completion (run env Auth.getUser w)
     = Done (mkAuthResult None
               (Some (mkAuthError (message_or ex "User retrieval failed")
                                  (Some 500%N))))) /\
  (forall e,
     answer env (sb_resetPasswordForEmail e) (ticks w) = After ms (Rejects ex) ->
     completion (run env (Auth.resetPassword e) w)
     = Done (mkAuthResult None
               (Some (mkAuthError (message_or ex "Password reset failed")
                                  (Some 500%N))))) /\
  (forall p,
     answer env (sb_updateUser_password p) (ticks w) = After ms (Rejects ex) ->
     completion (run env (Auth.updatePassword p) w)
     = Done (mkAuthResult None
               (Some (mkAuthError (message_or ex "Password update failed")
                                  (Some 500%N))))) /\
  (forall t ty,
     answer env (sb_verifyOtp t ty) (ticks w) = After ms (Rejects ex) ->
     completion (run env (Auth.verifyEmail t ty) w)
     = Done (mkAuthResult (mkAuthData None None)
               (Some (mkAuthError (message_or ex "Email verification failed")
                                  (Some 500%N))))) /\
  (forall e ty,
     answer env (sb_resend otp_signup e) (ticks w) = After ms (Rejects ex) ->
     completion (run env (Auth.resendVerificationEmail e ty) w)
     = Done (mkAuthResult None
               (Some (mkAuthError (message_or ex "Resend email failed")
                                  (Some 500%N))))).
Proof.
  unfold completion, Auth.signUp, Auth.signIn, Auth.enhancedSignOut,
    Auth.getSession, Auth.getUser, Auth.resetPassword, Auth.updatePassword,
    Auth.verifyEmail, Auth.resendVerificationEmail, await.
  repeat split; intros; simp_run;
    try match goal with ty : OtpType |- _ => destruct ty end; simp_run;
    match goal with H : answer _ _ _ = _ |- _ => rewrite H end;
    reflexivity.
Qed.

End FacadeTotal.

(* ------------------------------------------------------------------ *)
(** ** Session checks and timeouts *)

Section LoginCheck.
Variable decodeURIComponent : string -> Reply string.
Variable returnUrl : option string.

Abbreviation checkAuthentication :=
  (LoginPage.checkAuthentication decodeURIComponent returnUrl).

(** The login view's check settles within 5000 ms, whatever the gateway
    does. *)
Lemma checkAuthentication_bounded env (w : World LoginPage.State) :
  settled (completion (run env checkAuthentication w)) = true /\
  (clock (final (run env checkAuthentication w)) <= clock w + 5000)%N.
Proof.
  unfold LoginPage.checkAuthentication, LoginPage.verify_session,
    LoginPage.show_form, LoginPage.session_timeout_ms,
    Auth.isLikelyAuthenticated, Auth.getSession, await, call, race,
    sync_reply, get, set, completion, final.
  crush_run.
  all: split; try reflexivity.
  all: repeat match goal with
         | H : (_ <? _)%N = true |- _ => apply N.ltb_lt in H
         | H : (_ <? _)%N = false |- _ => apply N.ltb_ge in H
         end; lia.
Qed.

(** When the gateway has not answered within 5000 ms, the timer rejects
    the race and the view shows the login form without navigating. *)
Lemma checkAuthentication_timeout_shows_form env (w : World LoginPage.State)
  c w' evs s :
  run env checkAuthentication w = (c, w', evs) ->
  store w = LoginPage.initial ->
  In (Some s) (map session_settled evs) ->
  match s with After ms _ => (5000 <=? ms)%N | Never => true end = true ->
  c = Done tt /\
  store w' = LoginPage.mkState false false false /\
  Guard.navigations evs = [] /\
  clock w' = (clock w + 5000)%N.
Proof.
  intros Hrun Hw. revert Hrun.
  destruct w as [st cache subs br t n]. cbn in Hw. subst st.
  unfold LoginPage.checkAuthentication, LoginPage.verify_session,
    LoginPage.show_form, LoginPage.session_timeout_ms,
    Auth.isLikelyAuthenticated, Auth.getSession, await, call, race,
    sync_reply, get, set.
  crush_run.
  all: intros [= <- <- <-] Hin Hlate; cbn in Hin.
  all: pin_observed.
  all: cbn in Hlate;
    repeat match goal with
      | H : (_ <? _)%N = true |- _ => apply N.ltb_lt in H
      | H : (_ <=? _)%N = true |- _ => apply N.leb_le in H
      end; try lia.
  all: repeat split; reflexivity.
Qed.

End LoginCheck.

Section StoreChecks.
Import AuthStore.

(** [initialize] has no timer: a session query that is never answered
    leaves it pending, the store untouched. *)
Lemma initialize_waits_for_gateway env (w : World AuthState) c w' evs :
  run env initialize w = (c, w', evs) ->
  In (Some Never) (map session_settled evs) ->
  c = Pending /\ store w' = store w.
Proof.
  revert c w' evs.
  unfold initialize, Auth.isLikelyAuthenticated, Auth.getSession,
    Auth.onAuthStateChange, await, call, sync_reply, set.
  crush_run.
  all: intros c w' evs [= <- <- <-] Hin; cbn in Hin.
  all: repeat match goal with H : _ \/ _ |- _ => destruct H end;
    try discriminate; try contradiction.
  all: split; reflexivity.
Qed.

(** Neither has [refreshSession]. *)
Lemma refreshSession_waits_for_gateway env (w : World AuthState) c w' evs :
  run env refreshSession w = (c, w', evs) ->
  In (Some Never) (map session_settled evs) ->
  c = Pending /\ store w' = store w.
Proof.
  revert c w' evs.
  unfold refreshSession, Auth.getSession, await, call, sync_reply, set.
  crush_run.
  all: intros c w' evs [= <- <- <-] Hin; cbn in Hin.
  all: repeat match goal with H : _ \/ _ |- _ => destruct H end;
    try discriminate; try contradiction.
  all: split; reflexivity.
Qed.

End StoreChecks.

(** C4, as amended: of the session checks, only the login view's is
    bounded by a timeout; it races the session query against a 5000 ms
    timer, settles within 5000 ms whatever the gateway does, and shows
    the login form when the timer wins.  [initialize] and
    [refreshSession] await the session query without a timer and stay
    pending, the store untouched, while the gateway does not answer. *)
Theorem only_the_login_check_is_bounded :
  (forall decode returnUrl env (w : World LoginPage.State),
      let o := run env (LoginPage.checkAuthentication decode returnUrl) w in
      settled (completion o) = true /\
      (clock (final o) <= clock w + 5000)%N) /\
  (forall decode returnUrl env (w : World LoginPage.State) s,
      let o := run env (LoginPage.checkAuthentication decode returnUrl) w in
      store w = LoginPage.initial ->
      In (Some s) (map session_settled (events o)) ->
      match s with After ms _ => (5000 <=? ms)%N | Never => true end = true ->
      completion o = Done tt /\
      store (final o) = LoginPage.mkState false false false /\
      clock (final o) = (clock w + 5000)%N) /\
  (forall env (w : World AuthStore.AuthState),
      let o := run env AuthStore.initialize w in
      In (Some Never) (map session_settled (events o)) ->
      completion o = Pending /\ store (final o) = store w) /\
  (forall env (w : World AuthStore.AuthState),
      let o := run env AuthStore.refreshSession w in
      In (Some Never) (map session_settled (events o)) ->
      completion o = Pending /\ store (final o) = store w).
Proof.
  split; [| split; [| split]].
  - intros. apply checkAuthentication_bounded.
  - intros decode returnUrl env w s o Hw Hin Hlate. subst o.
    destruct (run env (LoginPage.checkAuthentication decode returnUrl) w)
      as [[c w'] evs] eqn:E.
    destruct (@checkAuthentication_timeout_shows_form decode returnUrl
                env w c w' evs s E Hw Hin Hlate)
      as (Hc & Hs & _ & Ht).
    repeat split; assumption.
  - intros env w o Hin. subst o.
    destruct (run env AuthStore.initialize w) as [[c w'] evs] eqn:E.
    exact (initialize_waits_for_gateway _ _ E Hin).
  - intros env w o Hin. subst o.
    destruct (run env AuthStore.refreshSession w) as [[c w'] evs] eqn:E.
    exact (refreshSession_waits_for_gateway _ _ E Hin).
Qed.

(** C4, as stated, fails: [refreshSession] (and [initialize] alike) is
    not bounded by any timeout. *)
Lemma store_session_checks_are_unbounded :
  ~ (always_settles AuthStore.initialize /\
     always_settles AuthStore.refreshSession /\
     forall decode returnUrl,
       always_settles (LoginPage.checkAuthentication decode returnUrl)).
Proof.
  intros (_ & claim & _).
  specialize (claim Scenario.silent Scenario.signed_in).
  vm_compute in claim. discriminate claim.
Qed.

(* ------------------------------------------------------------------ *)
(** ** The route guards *)

Section Guards.
Import Guard.

(** Both guards send a visitor without user to the login path, with the
    requested path as return URL. *)
Lemma guards_redirect_unauthenticated env (w : World bool) require
  redirectTo pathname hook :
  hook_guard false None require redirectTo pathname
             (mkHook (businessId hook) false (error hook))
  = Redirect (redirectTo ++ "?returnUrl=" ++ encodeURIComponent pathname) /\
  navigations (events (run env (promise_guard false None require
                                              redirectTo pathname) w))
  = [redirectTo ++ "?returnUrl=" ++ encodeURIComponent pathname].
Proof.
  split.
  - unfold hook_guard. cbn. now destruct require.
  - reflexivity.
Qed.

Example encodeURIComponent_path :
  encodeURIComponent "/citas/nueva?d=1 2" = "%2Fcitas%2Fnueva%3Fd%3D1%202".
Proof. reflexivity. Qed.

(** The promise-based guard follows the specification's reason codes;
    an error whose message is the guard's own ['No business found'] is
    taken for the absence of a tenant. *)
Lemma promise_guard_reason env (w : World bool) u redirectTo pathname
  c w' evs r :
  run env (promise_guard false (Some u) true redirectTo pathname) w
  = (c, w', evs) ->
  In (Some r) (map resolver_reply evs) ->
  navigations evs =
  if is_own_message r then [registration "no-business"]
  else match claimed_reason r with
       | Some reason => [registration reason]
       | None => []
       end.
Proof.
  revert c w' evs r.
  unfold promise_guard, await, call, set, sync_reply.
  crush_run.
  all: intros c' w' evs r [= <- <- <-] Hin; cbn in Hin; pin_observed.
  all: unfold claimed_reason, is_own_message.
  all: repeat match goal with
         | H : String.eqb _ _ = true |- _ => apply String.eqb_eq in H; subst
         | H : _ = _ |- _ => rewrite H
         end; reflexivity.
Qed.

(** The hook-based guard follows them too, as long as the failure has a
    message. *)
Lemma hook_guard_reason env (w : World HookState) u autoSelect skipCache
  redirectTo pathname c w' evs r :
  run env (loadBusinessContext true (Some u) autoSelect skipCache) w
  = (c, w', evs) ->
  In (Some r) (map resolver_reply evs) ->
  r <> Rejects (JsError "") ->
  hook_guard false (Some u) true redirectTo pathname (store w')
  = claimed_decision r.
Proof.
  revert c w' evs r.
  unfold loadBusinessContext, setIsLoading, setError, setBusinessId, await,
    get, set.
  crush_run.
  all: intros c' w' evs r [= <- <- <-] Hin Hmsg; cbn in Hin; pin_observed.
  all: unfold hook_guard, claimed_decision, claimed_reason; cbn.
  all: repeat match goal with
         | H : String.eqb _ _ = true |- _ => apply String.eqb_eq in H; subst
         | H : _ = _ |- _ => rewrite H
         end; cbn; try reflexivity.
  all: try match goal with
         | |- context [truthy_opt ?x] => destruct (truthy_opt x); reflexivity
         end.
  all: match goal with
       | |- context [truthy ?m] =>
           destruct m as [| a m'];
           [congruence
           | cbn in *;
             repeat match goal with H : _ = _ |- _ => rewrite H end;
             reflexivity]
       end.
Qed.

(** C8 fails on the code for the hook-based guard: the resolution fails
    with an error whose message is empty; the hook records [''], which
    the guard takes for no error, and the user is sent to tenant
    registration with [reason=no-business].  The promise-based guard
    answers the same failure with [reason=error]. *)
Theorem hook_guard_takes_silent_failure_for_no_tenant :
  In (Some (Rejects (JsError "")))
     (map resolver_reply (events silent_failure)) /\
  store (final silent_failure) = mkHook None false (Some "") /\
  hook_guard false (Some Scenario.alice_identity) true "/login" "/dashboard"
             (store (final silent_failure))
  = Redirect "/register/business?reason=no-business" /\
  navigations
    (events (run Scenario.resolver_fails_silently
                 (promise_guard false (Some Scenario.alice_identity) true
                                "/login" "/dashboard")
                 (mkWorld false None 0 Scenario.with_cookie 0%N 0)))
  = ["/register/business?reason=error"].
Proof. vm_compute. repeat split. right; right; left. reflexivity. Qed.

(** A timeout of the resolution is told apart by both guards. *)
Example guards_on_timeout :
  hook_guard false (Some Scenario.alice_identity) true "/login" "/dashboard"
    (store (final (run Scenario.resolver_times_out
                       (loadBusinessContext true (Some Scenario.alice_identity)
                                            (Some true) None)
                       hook_at_mount)))
  = Redirect "/register/business?reason=timeout" /\
  navigations
    (events (run Scenario.resolver_times_out
                 (promise_guard false (Some Scenario.alice_identity) true
                                "/login" "/dashboard")
                 (mkWorld false None 0 Scenario.with_cookie 0%N 0)))
  = ["/register/business?reason=timeout"].
Proof. vm_compute. split; reflexivity. Qed.

End Guards.

(* ------------------------------------------------------------------ *)
(** ** The store under interleaving *)

Section Invariant.
Import AuthStore Interleaving.

Lemma store_sync_effect {S X} (c : SyncCall X) r (w : World S) :
  store (sync_effect c r w) = store w.
Proof. destruct c, r; reflexivity. Qed.

Lemma store_call_effect {S X} (c : Call X) r (w : World S) :
  store (call_effect c r w) = store w.
Proof.
  destruct c, r; try reflexivity.
  cbn. destruct (bc_success x); reflexivity.
Qed.

(** A step of a safe program keeps the stored state well typed and the
    program safe. *)
Lemma tstep_safe {A} (w w' : World AuthState) (p p' : M A) :
  tstep w p w' p' ->
  well_typed (store w) = true -> Safe p ->
  well_typed (store w') = true /\ Safe p'.
Proof.
  induction 1; cbn; intros Hw Hp.
  - auto.
  - destruct Hp; auto.
  - rewrite store_sync_effect. auto.
  - auto.
  - rewrite store_call_effect. auto.
  - destruct Hp as [Hq Hk]. destruct (IHtstep Hw Hq). auto.
  - destruct Hp; auto.
  - destruct Hp; auto.
  - destruct Hp; auto.
Qed.

Lemma Safe_bind {A B} (p : M A) (f : A -> M B) :
  Safe p -> (forall a, Safe (f a)) -> Safe (bind p f).
Proof.
  intros Hp Hf.
  induction p as [A a | A e | A k IH | A s k IH | A X c k IH | A X c k IH
                 | A X q IHq ms e k IH]; cbn in *; auto.
  - destruct Hp; auto.
  - destruct Hp; auto.
Qed.

Lemma Safe_try_catch {A} (p : M A) (h : Exn -> M A) :
  Safe p -> (forall e, Safe (h e)) -> Safe (try_catch p h).
Proof.
  intros Hp Hh.
  induction p as [A a | A e | A k IH | A s k IH | A X c k IH | A X c k IH
                 | A X q IHq ms e k IH]; cbn in *; auto.
  - destruct Hp; auto.
  - destruct Hp; auto.
Qed.

Ltac safe_step :=
  match goal with
  | |- True => exact I
  | |- _ /\ _ => split
  | |- _ = _ => reflexivity
  | |- forall _, _ => intro
  | |- Safe (bind _ _) => apply Safe_bind
  | |- Safe (try_catch _ _) => apply Safe_try_catch
  | |- Safe (match ?x with _ => _ end) => destruct x eqn:?
  | |- Safe (if ?b then _ else _) => destruct b eqn:?
  | |- Safe (of_reply ?r) => is_var r; destruct r
  | |- Safe _ =>
      progress cbn -[split trim startsWith includes existsb String.eqb]
  end.

(** The facade writes nothing. *)
Lemma Safe_facade :
  (forall e p, Safe (Auth.signIn e p)) /\
  (forall e p, Safe (Auth.signUp e p)) /\
  Safe Auth.signOut /\
  (forall c, Safe (Auth.enhancedSignOut c)) /\
  Safe Auth.getSession /\
  Safe Auth.isLikelyAuthenticated /\
  Safe Auth.onAuthStateChange.
Proof.
  unfold Auth.signIn, Auth.signUp, Auth.signOut, Auth.enhancedSignOut,
    Auth.getSession, Auth.isLikelyAuthenticated, Auth.onAuthStateChange,
    await, call, race.
  repeat split; intros; repeat safe_step.
Qed.

(** Starting a sign-out from a well-typed state. *)
Lemma Safe_begin_sign_out : Safe begin_sign_out.
Proof.
  unfold begin_sign_out, get, set. cbn. intros s Hs.
  destruct (status_eqb (status s) authenticated) eqn:E; cbn; [| exact I].
  split; [| exact I].
  destruct s as [st u b e l]. destruct st; try discriminate E.
  unfold well_typed in *. cbn in *.
  destruct u, e, l; cbn in *; try discriminate; reflexivity.
Qed.

Lemma Safe_on_change a : Safe (on_change a).
Proof.
  unfold on_change, await, call, set.
  destruct a; repeat safe_step.
Qed.

(** Writing the new business id into an authenticated state. *)
Lemma Safe_setBusinessContext b : Safe (setBusinessContext b).
Proof.
  unfold setBusinessContext, await, get, set.
  apply Safe_try_catch; [| intros; exact I].
  cbn. intros [res | ex]; cbn; [| exact I].
  destruct (bc_success res); cbn; [| exact I].
  intros s Hs. destruct s as [st u bid e l].
  destruct st, u; cbn; try exact I.
  split; [| exact I].
  unfold well_typed in *. cbn in *.
  destruct e, l; cbn in *; try discriminate; reflexivity.
Qed.

(** Every action only ever writes well-typed states. *)
Lemma Safe_program a : Safe (program a).
Proof.
  destruct Safe_facade as (Hin & Hup & Hout & Hen & Hses & Hlik & Hsub).
  destruct a;
    unfold program, discard, initialize, signIn, signUp, signOut,
      enhancedSignOut, getCurrentBusinessIdAsync, refreshSession,
      _setUnauthenticated, _setAuthenticated, change_event,
      Auth.onAuthStateChange_listener, Auth.detached, set, await, call.
  all: repeat first
         [ exact Hlik | exact Hses | exact Hsub | exact Hout
         | apply Hin | apply Hup | apply Hen
         | apply Safe_begin_sign_out | apply Safe_on_change
         | apply Safe_setBusinessContext
         | safe_step ].
Qed.

Lemma step_invariant c c' : step c c' -> invariant c -> invariant c'.
Proof.
  intros Hstep [Hw Hts]. destruct Hstep as [a w ts He | w p w' p' ts1 ts2 Hp].
  - split; [exact Hw |]. constructor; [apply Safe_program | exact Hts].
  - cbn in *. apply Forall_app in Hts. destruct Hts as [H1 H2].
    inversion H2 as [| ? ? Hsafe H2']; subst.
    destruct (tstep_safe Hp Hw Hsafe) as [Hw' Hsafe'].
    split; [exact Hw' |].
    apply Forall_app. split; [exact H1 | constructor; assumption].
Qed.

(** Every reachable state is a value of the [AuthState] union. *)
Lemma reachable_well_typed s : reachable s -> well_typed s = true.
Proof.
  intros (b & cache & w & ts & Hpath & <-).
  assert (Hinv : invariant (w, ts)).
  { apply Operators_Properties.clos_rt_rtn1 in Hpath.
    induction Hpath as [| c1 c2 Hstep _ IH].
    - split; [reflexivity | constructor].
    - eapply step_invariant; eassumption. }
  exact (proj1 Hinv).
Qed.

(** C1, as amended: in every reachable state of the store, under every
    interleaving of actions and gateway events, the user is non-null
    exactly in [authenticated] and [signing-out], and [isLoading] is true
    exactly in [initializing], [authenticating] and [signing-out]. *)
Theorem reachable_states_are_consistent s :
  reachable s ->
  (user s <> None <-> status s = authenticated \/ status s = signing_out) /\
  (isLoading s = true <->
   status s = initializing \/ status s = authenticating
   \/ status s = signing_out).
Proof.
  intros Hr. apply reachable_well_typed in Hr.
  destruct s as [st u b e l]. unfold well_typed in Hr. cbn in *.
  destruct st, u, l; cbn in Hr; try discriminate Hr;
    repeat rewrite ?andb_false_r in Hr; try discriminate Hr.
  all: split; split; intro H; try congruence; auto.
  all: repeat match goal with
         | H : _ \/ _ |- _ => destruct H
         end; congruence.
Qed.

End Invariant.

Section SigningOut.
Import AuthStore Interleaving.

Ltac head_step :=
  eapply rt_trans;
  [ apply rt_step; eapply (@advance _ _ _ _ [] _); econstructor | cbn ].

(** A page load with the marker and a live session, then a call of
    [signOut] up to its first write. *)
Lemma signing_out_is_reachable : reachable signing_out_alice.
Proof.
  exists Scenario.with_cookie, None. do 2 eexists. split.
  - unfold boot.
    eapply rt_trans.
    { apply rt_step. apply (invoke call_initialize). reflexivity. }
    unfold program, initialize, Auth.isLikelyAuthenticated, call. cbn.
    head_step. head_step. head_step.
    unfold Auth.getSession, await. cbn.
    eapply rt_trans.
    { apply rt_step. eapply (@advance _ _ _ _ [] _).
      apply (step_await sb_getSession _ _
               (Resolves (mkGw (Some (mkSession Scenario.alice)) None))). }
    cbn.
    head_step. head_step.
    eapply rt_trans.
    { apply rt_step. apply (invoke call_signOut). reflexivity. }
    unfold program, signOut, begin_sign_out, get, set. cbn.
    head_step. head_step.
    apply rt_refl.
  - reflexivity.
Qed.

Lemma reachable_states_are_consistent_witness :
  reachable signing_out_alice /\
  (user signing_out_alice <> None <->
   status signing_out_alice = authenticated
   \/ status signing_out_alice = signing_out) /\
  (isLoading signing_out_alice = true <->
   status signing_out_alice = initializing
   \/ status signing_out_alice = authenticating
   \/ status signing_out_alice = signing_out).
Proof.
  split; [exact signing_out_is_reachable |].
  apply (reachable_states_are_consistent signing_out_is_reachable).
Defined.

(** C1, as stated, fails: while signing out the store still holds the
    user, so a non-null user does not imply [authenticated]. *)
Lemma user_outlives_authenticated :
  ~ (forall s, reachable s ->
       (user s <> None <-> status s = authenticated) /\
       (isLoading s = true <->
        status s = initializing \/ status s = authenticating
        \/ status s = signing_out)).
Proof.
  intros claim.
  destruct (claim _ signing_out_is_reachable) as [[H _] _].
  cbn in H. assert (E : signing_out = authenticated) by (apply H; discriminate).
  discriminate E.
Qed.

End SigningOut.

(* ------------------------------------------------------------------ *)
(** * Further properties *)

(** ** The facade's tenant operations *)

Section FacadeTenant.
Context {S : Type}.

(** X1 ([auth.setBusinessContext]): when the gateway returns an error for
    the update of the user's metadata, the operation returns that error
    and never calls [businessContext.setBusinessContext]. *)
Theorem setBusinessContext_stops_at_metadata_error env (w : World S) b
  c w' evs ms d e :
  run env (AuthBusiness.setBusinessContext b) w = (c, w', evs) ->
  In (Some (After ms (Resolves (mkGw d (Some e))))) (map metadata_settled evs) ->
  c = Done (Some e) /\
  existsb (fun ev => is_some (context_settled ev)) evs = false.
Proof.
  revert c w' evs.
  unfold AuthBusiness.setBusinessContext, await. intros c w' evs.
  crush_run.
  all: intros [= <- <- <-] Hin; cbn in Hin; pin_observed.
  all: cbn in *; try congruence.
  all: rewrite normalize_id; repeat split; congruence.
Qed.

(** X2 ([auth.setBusinessContext]): the operation never throws; it
    returns no error only after the metadata update was answered
    without error and the tenant context call, made after it, reported
    success; and an error it returns either is the one the gateway
    returned for the metadata update or carries status 500. *)
Theorem setBusinessContext_reports_every_failure env (w : World S) b :
  let o := run env (AuthBusiness.setBusinessContext b) w in
  raises (completion o) = false /\
  (completion o = Done None ->
   exists ms d ms' result,
     events o
     = [EvCall (sb_updateUser_data b) (After ms (Resolves (mkGw d None)));
        EvCall (bc_setBusinessContext b) (After ms' (Resolves result))] /\
     bc_success result = true) /\
  (forall e, completion o = Done (Some e) ->
     err_status e = Some 500%N \/
     exists ms d,
       In (Some (After ms (Resolves (mkGw d (Some e)))))
          (map metadata_settled (events o))).
Proof.
  unfold AuthBusiness.setBusinessContext, AuthBusiness.context_error,
    Auth.unexpected, await, completion, events.
  crush_run.
  all: split; [reflexivity | split].
  all: try (intros [= E]; discriminate E).
  all: try (intros e' [= E]; try discriminate E;
            first [ subst; left; reflexivity
                  | injection E as <-; left; reflexivity
                  | idtac ]).
  - right. rewrite normalize_id in E. subst.
    match goal with x : GwResult _ |- _ => destruct x as [d ge] end.
    cbn in *. subst. do 2 eexists. left. reflexivity.
  - intros _.
    match goal with x : GwResult _ |- _ => destruct x as [d ge] end.
    cbn in *. subst. do 4 eexists. split; [reflexivity | assumption].
Qed.

(** X3 ([auth.validateBusinessAccess]): when the user lookup yields no
    user, for whatever reason, the answer is "not valid" with status 401
    and the message "User not authenticated"; the run is the run of the
    lookup alone, so the validator is not consulted and the gateway's
    own error is dropped. *)
Theorem validateBusinessAccess_without_user validator env (w : World S) b
  r w1 evs1 :
  run env Auth.getUser w = (Done r, w1, evs1) ->
  result_error r <> None \/ result_data r = None ->
  run env (AuthBusiness.validateBusinessAccess validator b) w
  = (Done (mkValidity false
             (Some (mkAuthError "User not authenticated" (Some 401%N)))),
     w1, evs1).
Proof.
  intros Hrun Hno.
  assert (Hdata : result_data r = None).
  { destruct Hno as [Herr | Hd]; [| exact Hd].
    revert Hrun. unfold Auth.getUser, await. crush_run.
    all: intros [= <- <- <-]; cbn in *; congruence. }
  unfold AuthBusiness.validateBusinessAccess.
  rewrite run_bind, Hrun. cbn. rewrite Hdata. cbn.
  rewrite app_nil_r. reflexivity.
Qed.

(** X4 ([auth.validateBusinessAccess]): unlike the other operations of
    the facade this one has no [try]: once the user is known, an
    exception of the validator reaches the caller. *)
Theorem validateBusinessAccess_propagates validator env (w : World S) b
  r w1 evs1 u ex :
  run env Auth.getUser w = (Done r, w1, evs1) ->
  result_data r = Some u ->
  completion (run env (validator (sb_id u) b) w1) = Raised ex ->
  completion (run env (AuthBusiness.validateBusinessAccess validator b) w)
  = Raised ex.
Proof.
  intros Hrun Hdata Hval.
  unfold AuthBusiness.validateBusinessAccess.
  rewrite run_bind, Hrun. cbn. rewrite Hdata. rewrite run_bind.
  destruct (run env (validator (sb_id u) b) w1) as [[cv wv] ev].
  cbn in Hval. subst cv. reflexivity.
Qed.

(** X5 ([auth.signIn]): once the gateway has accepted the credentials,
    the login stands whatever [businessContext.setBusinessContext]
    returns, but when that call rejects, the operation reports a failed
    login with status 500 and hands out neither user nor session. *)
Theorem signIn_outcome_depends_on_context_call env (w : World S)
  email password c w' evs g ms r :
  run env (Auth.signIn email password) w = (c, w', evs) ->
  In (Some (Resolves g)) (map credential_reply evs) ->
  gw_error g = None ->
  In (Some (After ms r)) (map context_settled evs) ->
  c = Done (match r with
            | Resolves _ => mkAuthResult (gw_data g) None
            | Rejects ex =>
                mkAuthResult (mkAuthData None None)
                  (Some (mkAuthError (message_or ex "Login failed")
                                     (Some 500%N)))
            end).
Proof.
  revert c w' evs.
  unfold Auth.signIn, Auth.unexpected, await. intros c w' evs.
  crush_run.
  all: intros [= <- <- <-] Hin Herr Hctx; cbn in Hin, Hctx; pin_observed.
  all: try congruence; reflexivity.
Qed.

End FacadeTenant.

Lemma setBusinessContext_stops_at_metadata_error_witness :
  completion refused_tenant_update = Done (Some Cases.user_not_found) /\
  existsb (fun ev => is_some (context_settled ev))
          (events refused_tenant_update) = false.
Proof.
  apply (@setBusinessContext_stops_at_metadata_error _ Cases.metadata_refused
           Scenario.signed_in "b2" (completion refused_tenant_update)
           (final refused_tenant_update) (events refused_tenant_update)
           60%N None Cases.user_not_found).
  - reflexivity.
  - cbn. auto.
Defined.

(** The successful case of [auth.setBusinessContext] does occur. *)
Example tenant_update_succeeds : completion tenant_update = Done None.
Proof. reflexivity. Qed.

Lemma validateBusinessAccess_without_user_witness :
  run Cases.offline
      (AuthBusiness.validateBusinessAccess Cases.validator_denies "b1")
      Scenario.signed_in
  = (Done (mkValidity false
             (Some (mkAuthError "User not authenticated" (Some 401%N)))),
     final failed_user_lookup, events failed_user_lookup).
Proof.
  apply (@validateBusinessAccess_without_user _ Cases.validator_denies
           Cases.offline Scenario.signed_in "b1"
           (mkAuthResult None
              (Some (mkAuthError "Failed to fetch" (Some 500%N))))).
  - reflexivity.
  - left. discriminate.
Defined.

Lemma validateBusinessAccess_propagates_witness :
  completion (run Cases.user_known
                  (AuthBusiness.validateBusinessAccess Cases.validator_throws "b1")
                  Scenario.signed_in)
  = Raised (JsError "permission denied").
Proof.
  apply (@validateBusinessAccess_propagates _ Cases.validator_throws
           Cases.user_known Scenario.signed_in "b1"
           (mkAuthResult (Some Scenario.alice) None)
           (final user_lookup) (events user_lookup) Scenario.alice).
  - reflexivity.
  - reflexivity.
  - reflexivity.
Defined.

Lemma signIn_outcome_depends_on_context_call_witness :
  completion carol_signs_in
  = Done (mkAuthResult (mkAuthData None None)
            (Some (mkAuthError "tenant service unavailable" (Some 500%N)))).
Proof.
  apply (@signIn_outcome_depends_on_context_call _ Cases.context_unavailable
           (Scenario.page_load Scenario.no_cookies) "c@d.com" "secret"
           (completion carol_signs_in) (final carol_signs_in)
           (events carol_signs_in)
           (mkGw (mkAuthData (Some Cases.carol) (Some (mkSession Cases.carol)))
                 None)
           10%N (Rejects (JsError "tenant service unavailable"))).
  - reflexivity.
  - cbn. auto.
  - reflexivity.
  - cbn. auto.
Defined.

(* ------------------------------------------------------------------ *)
(** ** The cookie that marks a session *)

Section CookieMarker.














End CookieMarker.


(* ------------------------------------------------------------------ *)
(** ** The store's other actions *)

Lemma or_default_truthy o d : truthy d = true -> truthy (or_default o d) = true.
Proof.
  unfold or_default, truthy_opt. destruct o as [s |]; [| auto].
  destruct (truthy s) eqn:E; auto.
Qed.

Lemma status_eqb_eq a b : AuthStore.status_eqb a b = true -> a = b.
Proof. destruct a, b; cbn; congruence. Qed.

(** [logout_verdict] is what the facade returns. *)
Lemma facade_enhancedSignOut_result {S} env (w : World S) config c w' evs ms r :
  run env (Auth.enhancedSignOut config) w = (c, w', evs) ->
  In (Some (After ms r)) (map logout_settled evs) ->
  c = Done (logout_verdict r).
Proof.
  revert c w' evs. unfold Auth.enhancedSignOut, Auth.unexpected, await.
  intros c w' evs. crush_run.
  all: intros [= <- <- <-] Hin; cbn in Hin; pin_observed.
  all: cbn;
    repeat match goal with
           | H : lr_success _ = _ |- _ => rewrite H
           | H : lr_error _ = _ |- _ => rewrite H
           end; reflexivity.
Qed.

Section StoreMore.
Import AuthStore.

(** X7 ([enhancedSignOut] of the store): a call that settles never
    throws; it resolves to exactly what the facade makes of the logout
    routine's outcome, whatever the emergency cleanup does. *)
Theorem store_enhancedSignOut_returns_facade_result env (w : World AuthState)
  config c w' evs ms r :
  run env (enhancedSignOut config) w = (c, w', evs) ->
  In (Some (After ms r)) (map logout_settled evs) ->
  settled c = true ->
  c = Done (logout_verdict r).
Proof.
  revert c w' evs.
  unfold enhancedSignOut, begin_sign_out, Auth.enhancedSignOut, await, get, set.
  intros c w' evs. crush_run.
  all: intros [= <- <- <-] Hin Hs; cbn in Hin; pin_observed.
  all: try discriminate Hs.
  all: cbn; unfold Auth.unexpected; congruence.
Qed.

(** X8 ([enhancedSignOut] of the store): when the call returns and the
    logout succeeded, or a [clearBusinessContext] of the run resolved,
    the store is [unauthenticated] with no user, tenant or error and is
    not loading. *)
Theorem store_enhancedSignOut_resets env (w : World AuthState) config
  r w' evs :
  run env (enhancedSignOut config) w = (Done r, w', evs) ->
  e_error r = None \/ existsb clear_resolved evs = true ->
  store w' = mkState unauthenticated None None None false.
Proof.
  revert w' evs.
  unfold enhancedSignOut, begin_sign_out, Auth.enhancedSignOut, await, get, set.
  intros w' evs. crush_run.
  all: intros [= <- <- <-] [Hok | Hclear]; cbn in *;
    try discriminate; try congruence; reflexivity.
Qed.

(** X9 ([enhancedSignOut] of the store): when the emergency
    [clearBusinessContext] rejects, the call still returns normally, with
    an error, and the store keeps what the first write left: a store that
    was [authenticated] stays [signing-out] with [isLoading] true. *)
Theorem store_enhancedSignOut_failed_cleanup env (w : World AuthState) config
  c w' evs ms ex :
  run env (enhancedSignOut config) w = (c, w', evs) ->
  In (Some (After ms (Rejects ex))) (map clear_settled evs) ->
  (exists r e, c = Done r /\ e_error r = Some e) /\
  store w' =
  (if status_eqb (status (store w)) authenticated
   then mkState signing_out (user (store w)) (businessId (store w))
                (error (store w)) true
   else store w).
Proof.
  revert c w' evs.
  unfold enhancedSignOut, begin_sign_out, Auth.enhancedSignOut, await, get, set.
  intros c w' evs. crush_run.
  all: intros [= <- <- <-] Hin; cbn in Hin; pin_observed.
  all: cbn; split; [do 2 eexists; split; reflexivity | reflexivity].
Qed.

(** X10 ([setBusinessContext] of the store): after a successful call on
    an authenticated store, the store's tenant and the tenant of its
    user are both the new one, and nothing else has changed. *)
Theorem store_setBusinessContext_updates_identity env (w : World AuthState)
  b w' evs u :
  run env (setBusinessContext b) w = (Done None, w', evs) ->
  status (store w) = authenticated ->
  user (store w) = Some u ->
  store w' = mkState authenticated
               (Some (mkAuthUser (id u) (email u) (name u) (Some b)))
               (Some b) (error (store w)) (isLoading (store w)).
Proof.
  revert w' evs.
  unfold setBusinessContext, await, get, set. intros w' evs.
  destruct w as [st cache subs br t n]. destruct st as [s u0 bid e l].
  cbn. intros Hrun -> ->. revert Hrun.
  crush_run.
  all: intros [= <- <-]; try discriminate; reflexivity.
Qed.

(** X11 ([setBusinessContext] of the store): the action never throws;
    the store is left untouched unless the call succeeded, and also
    when the status is not [authenticated]; and an error it returns has
    a non-empty message and no status. *)
Theorem store_setBusinessContext_failure_is_clean env (w : World AuthState) b :
  let o := run env (setBusinessContext b) w in
  raises (completion o) = false /\
  (completion o <> Done None -> store (final o) = store w) /\
  (status (store w) <> authenticated -> store (final o) = store w) /\
  (forall e, completion o = Done (Some e) ->
             truthy (message e) = true /\ err_status e = None).
Proof.
  unfold setBusinessContext, await, get, set, completion, final.
  destruct w as [st cache subs br t n]. destruct st as [s u0 bid e l].
  crush_run.
  all: repeat match goal with
         | H : negb true = true |- _ => discriminate H
         | H : status_eqb _ _ = true |- _ => apply status_eqb_eq in H; subst
         end.
  all: cbn in *; repeat split; try congruence; try reflexivity.
  all: try (intros; exfalso; congruence).
  all: match goal with
       | H : Done (Some _) = Done (Some _) |- _ => injection H as <-
       end; cbn; try reflexivity.
  all: apply or_default_truthy; reflexivity.
Qed.

(** X12 ([refreshSession] of the store): when the session query yields
    no session, be it that the gateway failed, returned an error or
    returned none, a refresh that settles leaves the store
    [unauthenticated] with no error recorded, and has asked for the
    tenant context to be cleared. *)
Theorem refreshSession_failure_signs_out env (w : World AuthState)
  c w' evs ms r :
  run env refreshSession w = (c, w', evs) ->
  In (Some (After ms r)) (map session_settled evs) ->
  no_session r = true ->
  settled c = true ->
  store w' = mkState unauthenticated None None None false /\
  existsb (fun ev => is_some (clear_settled ev)) evs = true.
Proof.
  revert c w' evs.
  unfold refreshSession, Auth.getSession, session_identity, await, call,
    sync_reply, set.
  intros c w' evs. crush_run.
  all: intros [= <- <- <-] Hin Hno Hs; try discriminate Hs.
  all: cbn in Hin; pin_observed.
  all: cbn in *; auto.
  all: match goal with
       | H1 : gw_error ?x = None, H2 : gw_data ?x = Some _ |- _ =>
           rewrite H1, H2 in *; discriminate
       end.
Qed.

(** X13 ([refreshSession] of the store): when reading the cached tenant
    throws, a refresh that settles leaves the store [unauthenticated],
    although the gateway holds a live session. *)
Theorem refreshSession_lookup_failure_signs_out env (w : World AuthState)
  c w' evs :
  run env refreshSession w = (c, w', evs) ->
  existsb lookup_threw evs = true ->
  settled c = true ->
  store w' = mkState unauthenticated None None None false.
Proof.
  revert c w' evs.
  unfold refreshSession, Auth.getSession, session_identity, await, call,
    sync_reply, set.
  intros c w' evs. crush_run.
  all: intros [= <- <- <-] Hin Hs; try discriminate Hs.
  all: cbn in Hin; try discriminate Hin; reflexivity.
Qed.

(** X14 ([initialize] of the store): when reading the cached tenant
    throws, [initialize] goes on: once it has subscribed, the store is
    [authenticated] with no tenant and no error. *)
Theorem initialize_tolerates_lookup_failure env (w : World AuthState)
  c w' evs :
  run env initialize w = (c, w', evs) ->
  existsb lookup_threw evs = true ->
  existsb is_subscription evs = true ->
  c = Done tt /\
  status (store w') = authenticated /\
  businessId (store w') = None /\
  error (store w') = None.
Proof.
  revert c w' evs.
  unfold initialize, Auth.isLikelyAuthenticated, Auth.getSession,
    Auth.onAuthStateChange, session_identity, await, call, sync_reply, set.
  intros c w' evs. crush_run.
  all: intros [= <- <- <-] Hin Hsub.
  all: cbn in Hin, Hsub; try discriminate Hin; try discriminate Hsub.
  all: rewrite ?orb_false_r, ?orb_true_r in *; try discriminate.
  all: cbn; auto.
Qed.

(** X16 ([useRequireAuth], [useRequireBusinessContext] of the store): a
    view that uses both hooks is sent nowhere while the store
    initializes, to [/register/business] when authenticated without a
    tenant, nowhere when authenticated with one, and to [/login] in
    every other status, [authenticating] and [signing-out] included. *)
Theorem store_hooks_redirects env (w : World AuthState) :
  let evs := events (run env (StoreHooks.useRequireAuth ;;
                              StoreHooks.useRequireBusinessContext) w) in
  Guard.navigations evs =
  match status (store w) with
  | initializing => []
  | authenticated =>
      match truthy_opt (businessId (store w)) with
      | Some _ => []
      | None => ["/register/business"]
      end
  | _ => ["/login"]
  end.
Proof.
  unfold StoreHooks.useRequireAuth, StoreHooks.useRequireBusinessContext,
    StoreHooks.useIsInitialized, StoreHooks.useIsAuthenticated, call,
    sync_reply, get, events.
  destruct w as [st cache subs br t n]. destruct st as [s u b e l].
  destruct s; cbn; try reflexivity.
  destruct (truthy_opt b); reflexivity.
Qed.

End StoreMore.

Lemma store_enhancedSignOut_returns_facade_result_witness :
  completion full_logout
  = Done (mkEnhanced None (Some [("businessContext", true)])).
Proof.
  apply (@store_enhancedSignOut_returns_facade_result Cases.logout_succeeds
           Scenario.signed_in None (completion full_logout)
           (final full_logout) (events full_logout) 50%N
           (Resolves (mkLogoutResult true None
                        (Some [("businessContext", true)])))).
  - reflexivity.
  - cbn. auto.
  - reflexivity.
Defined.

Lemma store_enhancedSignOut_resets_witness :
  store (final full_logout)
  = AuthStore.mkState AuthStore.unauthenticated None None None false.
Proof.
  apply (@store_enhancedSignOut_resets Cases.logout_succeeds
           Scenario.signed_in None
           (mkEnhanced None (Some [("businessContext", true)]))
           (final full_logout) (events full_logout)).
  - reflexivity.
  - left. reflexivity.
Defined.

Lemma store_enhancedSignOut_failed_cleanup_witness :
  (exists r e, completion stuck_logout = Done r /\ e_error r = Some e) /\
  store (final stuck_logout)
  = AuthStore.mkState AuthStore.signing_out (Some Scenario.alice_on_b1)
                      (Some "b1") None true.
Proof.
  apply (@store_enhancedSignOut_failed_cleanup Cases.logout_and_cleanup_fail
           Scenario.signed_in None (completion stuck_logout)
           (final stuck_logout) (events stuck_logout) 15%N
           (JsError "storage unavailable")).
  - reflexivity.
  - cbn. auto.
Defined.

Lemma store_setBusinessContext_updates_identity_witness :
  store (final tenant_switch)
  = AuthStore.mkState AuthStore.authenticated
      (Some (mkAuthUser "u1" "a@b.com" None (Some "b2"))) (Some "b2") None false.
Proof.
  apply (@store_setBusinessContext_updates_identity Cases.tenant_set
           Scenario.signed_in "b2" (final tenant_switch) (events tenant_switch)
           Scenario.alice_on_b1).
  - reflexivity.
  - reflexivity.
  - reflexivity.
Defined.

Lemma refreshSession_failure_signs_out_witness :
  store (final offline_refresh)
  = AuthStore.mkState AuthStore.unauthenticated None None None false /\
  existsb (fun ev => is_some (clear_settled ev)) (events offline_refresh) = true.
Proof.
  apply (@refreshSession_failure_signs_out Cases.offline Scenario.signed_in
           (completion offline_refresh) (final offline_refresh)
           (events offline_refresh) 30%N (Rejects (JsError "Failed to fetch"))).
  - reflexivity.
  - cbn. auto.
  - reflexivity.
  - reflexivity.
Defined.

Lemma refreshSession_lookup_failure_signs_out_witness :
  store (final blind_refresh)
  = AuthStore.mkState AuthStore.unauthenticated None None None false.
Proof.
  apply (@refreshSession_lookup_failure_signs_out Cases.cache_unreadable
           Scenario.signed_in (completion blind_refresh) (final blind_refresh)
           (events blind_refresh)).
  - reflexivity.
  - reflexivity.
  - reflexivity.
Defined.

Lemma initialize_tolerates_lookup_failure_witness :
  completion blind_start = Done tt /\
  AuthStore.status (store (final blind_start)) = AuthStore.authenticated /\
  AuthStore.businessId (store (final blind_start)) = None /\
  AuthStore.error (store (final blind_start)) = None.
Proof.
  apply (@initialize_tolerates_lookup_failure Cases.cache_unreadable
           Scenario.returning_visitor (completion blind_start)
           (final blind_start) (events blind_start)).
  - reflexivity.
  - reflexivity.
  - reflexivity.
Defined.

(* ------------------------------------------------------------------ *)
(** ** Initialization happens once *)

Section Initialized.
Import AuthStore Interleaving.

(** A step of a program that never writes [initializing] keeps the
    store out of it. *)
Lemma tstep_leaves {A} (w w' : World AuthState) (p p' : M A) :
  tstep w p w' p' ->
  status (store w) <> initializing -> Leaves p ->
  status (store w') <> initializing /\ Leaves p'.
Proof.
  induction 1; cbn; intros Hw Hp.
  - auto.
  - destruct Hp; auto.
  - rewrite store_sync_effect. auto.
  - auto.
  - rewrite store_call_effect. auto.
  - destruct Hp as [Hq Hk]. destruct (IHtstep Hw Hq). auto.
  - destruct Hp; auto.
  - destruct Hp; auto.
  - destruct Hp; auto.
Qed.

Lemma tstep_leaves_program {A} (w w' : World AuthState) (p p' : M A) :
  tstep w p w' p' -> Leaves p -> Leaves p'.
Proof.
  induction 1; cbn; intros Hp; auto; try (destruct Hp; auto).
Qed.

Lemma Leaves_bind {A B} (p : M A) (f : A -> M B) :
  Leaves p -> (forall a, Leaves (f a)) -> Leaves (bind p f).
Proof.
  intros Hp Hf.
  induction p as [A a | A e | A k IH | A s k IH | A X c k IH | A X c k IH
                 | A X q IHq ms e k IH]; cbn in *; auto.
  - destruct Hp; auto.
  - destruct Hp; auto.
Qed.

Lemma Leaves_try_catch {A} (p : M A) (h : Exn -> M A) :
  Leaves p -> (forall e, Leaves (h e)) -> Leaves (try_catch p h).
Proof.
  intros Hp Hh.
  induction p as [A a | A e | A k IH | A s k IH | A X c k IH | A X c k IH
                 | A X q IHq ms e k IH]; cbn in *; auto.
  - destruct Hp; auto.
  - destruct Hp; auto.
Qed.

Ltac leaves_step :=
  match goal with
  | |- True => exact I
  | |- _ /\ _ => split
  | |- _ <> _ => discriminate
  | |- forall _, _ => intro
  | |- Leaves (bind _ _) => apply Leaves_bind
  | |- Leaves (try_catch _ _) => apply Leaves_try_catch
  | |- Leaves (match ?x with _ => _ end) => destruct x eqn:?
  | |- Leaves (if ?b then _ else _) => destruct b eqn:?
  | |- Leaves (of_reply ?r) => is_var r; destruct r
  | |- Leaves _ =>
      progress cbn -[split trim startsWith includes existsb String.eqb]
  end.

Lemma Leaves_facade :
  (forall e p, Leaves (Auth.signIn e p)) /\
  (forall e p, Leaves (Auth.signUp e p)) /\
  Leaves Auth.signOut /\
  (forall c, Leaves (Auth.enhancedSignOut c)) /\
  Leaves Auth.getSession /\
  Leaves Auth.isLikelyAuthenticated /\
  Leaves Auth.onAuthStateChange.
Proof.
  unfold Auth.signIn, Auth.signUp, Auth.signOut, Auth.enhancedSignOut,
    Auth.getSession, Auth.isLikelyAuthenticated, Auth.onAuthStateChange,
    await, call, race.
  repeat split; intros; repeat leaves_step.
Qed.

Lemma Leaves_setBusinessContext b : Leaves (setBusinessContext b).
Proof.
  unfold setBusinessContext, await, get, set.
  apply Leaves_try_catch; [| intros; exact I].
  cbn. intros [res | ex]; cbn; [| exact I].
  destruct (bc_success res); cbn; [| exact I].
  intros s. destruct s as [st u bid e l].
  destruct st, u; cbn; try exact I.
  split; [discriminate | exact I].
Qed.

Lemma Leaves_program a : Leaves (program a).
Proof.
  destruct Leaves_facade as (Hin & Hup & Hout & Hen & Hses & Hlik & Hsub).
  destruct a;
    unfold program, discard, initialize, signIn, signUp, signOut,
      enhancedSignOut, begin_sign_out, getCurrentBusinessIdAsync,
      refreshSession, _setUnauthenticated, _setAuthenticated, change_event,
      on_change, Auth.onAuthStateChange_listener, Auth.detached, get, set,
      await, call.
  all: repeat first
         [ exact Hlik | exact Hses | exact Hsub | exact Hout
         | apply Hin | apply Hup | apply Hen
         | apply Leaves_setBusinessContext
         | leaves_step ].
Qed.

Lemma step_leaves c c' :
  step c c' ->
  Forall (fun p => Leaves p) (snd c) ->
  Forall (fun p => Leaves p) (snd c') /\
  (status (store (fst c)) <> initializing ->
   status (store (fst c')) <> initializing).
Proof.
  intros Hstep Hts. destruct Hstep as [a w ts He | w p w' p' ts1 ts2 Hp].
  - split; [| auto]. constructor; [apply Leaves_program | exact Hts].
  - cbn in *. apply Forall_app in Hts. destruct Hts as [H1 H2].
    inversion H2 as [| ? ? Hl H2']; subst.
    split.
    + apply Forall_app. split; [exact H1 |].
      constructor; [| exact H2']. exact (tstep_leaves_program Hp Hl).
    + intros Hw. exact (proj1 (tstep_leaves Hp Hw Hl)).
Qed.

Lemma path_leaves c c' :
  clos_refl_trans Config step c c' ->
  Forall (fun p => Leaves p) (snd c) ->
  Forall (fun p => Leaves p) (snd c') /\
  (status (store (fst c)) <> initializing ->
   status (store (fst c')) <> initializing).
Proof.
  intros Hpath. apply Operators_Properties.clos_rt_rt1n in Hpath.
  induction Hpath as [c | c1 c2 c3 Hstep _ IH]; intros Hts.
  - auto.
  - destruct (step_leaves Hstep Hts) as [Hts2 H12].
    destruct (IH Hts2) as [Hts3 H23]. auto.
Qed.

(** X15 (the store's actions, [useIsInitialized]): in every execution
    from page load, under every interleaving of actions and gateway
    events, a store that has left [initializing] never returns to it:
    once [useIsInitialized] is true it stays true. *)
Theorem initialization_is_final b cache w ts w' ts' :
  clos_refl_trans Config step (boot b cache) (w, ts) ->
  clos_refl_trans Config step (w, ts) (w', ts') ->
  StoreHooks.useIsInitialized (store w) = true ->
  StoreHooks.useIsInitialized (store w') = true.
Proof.
  intros H1 H2 Hinit.
  destruct (path_leaves H1) as [Hts _]; [constructor |].
  destruct (path_leaves H2 Hts) as [_ Hkeep]. cbn in Hkeep.
  unfold StoreHooks.useIsInitialized in *.
  destruct (status (store w)); try discriminate Hinit.
  all: destruct (status (store w')); try reflexivity.
  all: exfalso; apply Hkeep; [discriminate | reflexivity].
Qed.

(** [_setUnauthenticated()] on a fresh page. *)
Lemma signed_out_config_reached :
  clos_refl_trans Config step (boot Scenario.no_cookies None) signed_out_config.
Proof.
  eapply rt_trans.
  { apply rt_step. apply (invoke (call_setUnauthenticated None)).
    reflexivity. }
  apply rt_step. eapply (@advance _ _ _ _ [] []). apply step_put.
Qed.

(** Then a sign-in, up to its first write. *)
Lemma signing_in_reached :
  exists ts,
    clos_refl_trans Config step signed_out_config (signing_in_world, ts).
Proof.
  eexists. eapply rt_trans.
  { apply rt_step. apply (invoke (call_signIn "a@b.com" "secret")).
    reflexivity. }
  apply rt_step. eapply (@advance _ _ _ _ [] [Ret tt]). apply step_put.
Qed.

Lemma initialization_is_final_witness :
  StoreHooks.useIsInitialized (store (fst signed_out_config)) = true /\
  StoreHooks.useIsInitialized (store signing_in_world) = true.
Proof.
  split; [reflexivity |].
  destruct signing_in_reached as [ts Hpath].
  apply (@initialization_is_final Scenario.no_cookies None
           (fst signed_out_config) (snd signed_out_config)
           signing_in_world ts).
  - exact signed_out_config_reached.
  - exact Hpath.
  - reflexivity.
Defined.

End Initialized.

(* ------------------------------------------------------------------ *)
(** ** The provider's other actions *)

Section ContextMore.
Import AuthContext.

(** X17 ([signIn], [signUp] of the provider): a call that settles never
    throws, ends with [isLoading] false and leaves [user] as it was; an
    error it returns is one the gateway returned or one of the facade's
    with status 500. *)
Theorem context_credentials_pass_through env (w : World State)
  up email password c w' evs :
  run env (context_credential_action up email password) w = (c, w', evs) ->
  settled c = true ->
  raises c = false /\
  isLoading (store w') = false /\
  user (store w') = user (store w) /\
  forall e, c = Done (Some e) ->
    err_status e = Some 500%N \/
    exists g, In (Some (Resolves g)) (map credential_reply evs) /\
              gw_error g = Some e.
Proof.
  revert c w' evs.
  destruct up; unfold context_credential_action, ContextActions.signUp,
    ContextActions.signIn, Auth.signUp, Auth.signIn, Auth.unexpected,
    setIsLoading, await, call, sync_reply, get, set; intros c w' evs.
  all: crush_run.
  all: intros [= <- <- <-] Hs; try discriminate Hs.
  all: repeat split; try reflexivity.
  all: intros e' [= E]; try discriminate E.
  all: try (subst; left; reflexivity).
  all: try (injection E as <-; left; reflexivity).
  all: right; rewrite ?normalize_id in *; eexists; split;
    [cbn; eauto 8 | congruence].
Qed.

(** X18 ([enhancedSignOut] of the provider): the call navigates at most
    once, and only when the configuration asks for a redirect and the
    emergency [clearBusinessContext] resolved; the target then is the
    configured URL and, without one, [/login]. *)
Theorem context_enhancedSignOut_redirects env (w : World State) config :
  let evs := events (run env (ContextActions.enhancedSignOut config) w) in
  Guard.navigations evs = [] \/
  exists cfg,
    config = Some cfg /\ redirectToLogin cfg = Some true /\
    Guard.navigations evs = [or_default (redirectUrl cfg) "/login"] /\
    existsb clear_resolved evs = true.
Proof.
  unfold ContextActions.enhancedSignOut, ContextActions.force_redirect,
    Auth.enhancedSignOut, setIsLoading, setUser, await, call, sync_reply,
    get, set, events.
  destruct config as [cfg |]; [destruct (redirectToLogin cfg) as [[|] |] eqn:R |].
  all: crush_run.
  all: try (left; reflexivity).
  all: right; exists cfg; repeat split; try assumption; reflexivity.
Qed.

(** X19 ([enhancedSignOut] of the provider): a call that settles
    resolves to what the facade makes of the logout routine's outcome and
    ends with [isLoading] false; the user is cleared when the logout
    succeeded or a [clearBusinessContext] of the run resolved. *)
Theorem context_enhancedSignOut_result env (w : World State) config
  c w' evs ms r :
  run env (ContextActions.enhancedSignOut config) w = (c, w', evs) ->
  In (Some (After ms r)) (map logout_settled evs) ->
  settled c = true ->
  c = Done (logout_verdict r) /\
  isLoading (store w') = false /\
  (e_error (logout_verdict r) = None \/ existsb clear_resolved evs = true ->
   user (store w') = None).
Proof.
  revert c w' evs.
  unfold ContextActions.enhancedSignOut, ContextActions.force_redirect,
    Auth.enhancedSignOut, Auth.unexpected, setIsLoading, setUser, await, call,
    sync_reply, get, set.
  destruct config as [cfg |]; [destruct (redirectToLogin cfg) as [[|] |] eqn:R |].
  all: intros c w' evs; crush_run.
  all: intros [= <- <- <-] Hin Hs; try discriminate Hs.
  all: cbn in Hin; pin_observed.
  all: cbn; repeat split; try congruence.
  all: intros [H | H]; cbn in H; try discriminate H; try congruence; try reflexivity.
Qed.


End ContextMore.

Lemma context_credentials_pass_through_witness :
  raises (completion provider_wrong_password) = false /\
  AuthContext.isLoading (store (final provider_wrong_password)) = false /\
  AuthContext.user (store (final provider_wrong_password))
  = AuthContext.user (store (Cases.provider true)) /\
  forall e, completion provider_wrong_password = Done (Some e) ->
    err_status e = Some 500%N \/
    exists g, In (Some (Resolves g))
                 (map credential_reply (events provider_wrong_password)) /\
              gw_error g = Some e.
Proof.
  apply (@context_credentials_pass_through Scenario.wrong_password
           (Cases.provider true) false "a@b.com" "wrong"
           (completion provider_wrong_password)
           (final provider_wrong_password) (events provider_wrong_password)).
  - reflexivity.
  - reflexivity.
Defined.

Lemma context_enhancedSignOut_result_witness :
  completion provider_logout
  = Done (logout_verdict
            (Resolves (mkLogoutResult true None
                         (Some [("businessContext", true)])))) /\
  AuthContext.isLoading (store (final provider_logout)) = false /\
  (e_error (logout_verdict
              (Resolves (mkLogoutResult true None
                           (Some [("businessContext", true)])))) = None
   \/ existsb clear_resolved (events provider_logout) = true ->
   AuthContext.user (store (final provider_logout)) = None).
Proof.
  apply (@context_enhancedSignOut_result Cases.logout_succeeds
           Cases.provider_signed_in None (completion provider_logout)
           (final provider_logout) (events provider_logout) 50%N
           (Resolves (mkLogoutResult true None
                        (Some [("businessContext", true)])))).
  - reflexivity.
  - cbn. auto.
  - reflexivity.
Defined.


(* ------------------------------------------------------------------ *)
(** ** The login form *)

Section LoginFormFacts.
Import LoginForm.
Variable decode : string -> Reply string.
Variable validate : string -> string -> option (list (string * string)).

(** Every text shown for a failed sign-in is non-empty. *)
Lemma login_error_text_truthy m : truthy (login_error_text m) = true.
Proof.
  unfold login_error_text.
  repeat match goal with
         | |- context [if ?b then _ else _] => destruct b eqn:?
         end; try reflexivity; assumption.
Qed.

#[local] Arguments login_error_text : simpl never.

(** X21 ([handleSubmit]): when the form data do not validate, the
    submission stops there: the field errors are shown, nothing is
    asked of the gateway and [isLoading] is not touched. *)
Theorem handleSubmit_rejects_invalid_form returnUrl env (w : World State) errs :
  validate (email (formData (store w))) (password (formData (store w)))
  = Some errs ->
  let o := run env (handleSubmit decode validate returnUrl) w in
  completion o = Done tt /\
  store (final o) = mkState (formData (store w)) errs (isLoading (store w)) /\
  forallb is_write (events o) = true.
Proof.
  intros Hv.
  unfold handleSubmit, validateForm, setErrors, setIsLoading, get, set,
    completion, final, events.
  simp_run. rewrite Hv. simp_run. repeat split.
Qed.

(** X22 ([handleSubmit]): a submission of valid data that settles never
    throws and ends with [isLoading] false; either it has navigated,
    exactly once and with no error shown, or it has not navigated and
    shows a non-empty form error. *)
Theorem handleSubmit_shows_error_or_navigates returnUrl env (w : World State)
  c w' evs :
  validate (email (formData (store w))) (password (formData (store w)))
  = None ->
  run env (handleSubmit decode validate returnUrl) w = (c, w', evs) ->
  settled c = true ->
  c = Done tt /\
  isLoading (store w') = false /\
  ((Guard.navigations evs = [] /\
    exists text, errors (store w') = [("form", text)] /\ truthy text = true)
   \/
   (exists url, Guard.navigations evs = [url]) /\ errors (store w') = []).
Proof.
  intros Hv. revert c w' evs.
  unfold handleSubmit, validateForm, setErrors, setIsLoading, Auth.signIn,
    Auth.unexpected, await, call, sync_reply, get, set.
  intros c w' evs.
  simp_run. rewrite Hv. crush_run.
  all: intros [= <- <- <-] Hs; try discriminate Hs.
  all: split; [reflexivity | split; [reflexivity |]].
  all: try (left; split; [reflexivity |]; eexists; split;
            [reflexivity | first [reflexivity | apply login_error_text_truthy]]).
  all: right; split; [eexists; reflexivity | reflexivity].
Qed.

(** X23 ([handleSubmit]): whatever happens, the only places a
    submission can navigate to are [/dashboard], when there is no return
    URL, and the decoded return URL, when it decodes. *)
Theorem handleSubmit_navigates_to_return_url_only returnUrl env
  (w : World State) :
  let evs := events (run env (handleSubmit decode validate returnUrl) w) in
  Guard.navigations evs = [] \/
  (truthy_opt returnUrl = None /\ Guard.navigations evs = ["/dashboard"]) \/
  (exists u p, truthy_opt returnUrl = Some u /\ decode u = Resolves p /\
               Guard.navigations evs = [p]).
Proof.
  unfold handleSubmit, validateForm, setErrors, setIsLoading, Auth.signIn,
    Auth.unexpected, await, call, sync_reply, get, set, events.
  destruct (truthy_opt returnUrl) as [u |] eqn:Hu;
    [destruct (decode u) as [p | ex] eqn:Hd |].
  all: crush_run.
  all: try (left; reflexivity).
  all: right.
  all: try (left; split; reflexivity).
  all: right; do 2 eexists; repeat split; try eassumption; reflexivity.
Qed.


(** X25 ([handleForgotPassword] and the banner of the form): with an
    empty email nothing is asked of the gateway and no banner appears,
    the email field gets the error; once the gateway has settled the
    reset request, the banner is green with the confirmation when the
    request succeeded and red with the failure text otherwise. *)
Theorem handleForgotPassword_banner env (w : World State) :
  let o := run env handleForgotPassword w in
  (email (formData (store w)) = "" ->
   completion o = Done tt /\
   errors (store (final o))
   = [("email", "Ingresa tu email para recuperar la contraseña")] /\
   banner (store (final o)) = NoBanner /\
   forallb is_write (events o) = true) /\
  (forall ms r,
     In (Some (After ms r)) (map reset_settled (events o)) ->
     banner (store (final o)) =
     match gateway_error "Password reset failed" r with
     | None =>
         Green ("Se ha enviado un email de recuperación a "
                ++ email (formData (store w))
                ++ ". Revisa tu bandeja de entrada.")
     | Some _ => Red "Error al enviar el email de recuperación"
     end).
Proof.
  cbv zeta. split.
  - intros He.
    unfold handleForgotPassword, setErrors, get, set, completion, final, events.
    simp_run. rewrite He. simp_run. repeat split.
  - intros ms r.
    unfold handleForgotPassword, setErrors, Auth.resetPassword, await, get,
      set, final, events.
    crush_run.
    all: intros Hin; cbn in Hin; pin_observed.
    all: unfold banner; cbn; rewrite ?normalize_id in *.
    all: try match goal with H : gw_error _ = _ |- _ => rewrite H end.
    all: try reflexivity.
    all: cbn in *; congruence.
Qed.

(** X26 (the effect that runs when the login view mounts): after a
    logout redirect ([?logout=true]) the view shows the form at once,
    without reading the cookies and without asking the gateway. *)
Theorem mount_after_logout_skips_check returnUrl env
  (w : World LoginPage.State) :
  LoginPage.hasRedirected (store w) = false ->
  let o := run env (mount decode (Some "true") returnUrl) w in
  completion o = Done tt /\
  LoginPage.checkingAuth (store (final o)) = false /\
  forallb is_write (events o) = true.
Proof.
  intros Hr.
  unfold mount, get, set, completion, final, events.
  simp_run. rewrite Hr. simp_run. repeat split.
Qed.

(** X27 ([checkAuthentication] of the login view): a visitor whose
    session the gateway confirms in time is sent to [/dashboard], or to
    the decoded return URL, exactly once, and the view keeps its
    spinner; when the return URL cannot be decoded the view navigates
    nowhere and is left with its spinner all the same. *)
Theorem checkAuthentication_redirects_or_hangs returnUrl env
  (w : World LoginPage.State) c w' evs ms session :
  run env (LoginPage.checkAuthentication decode returnUrl) w = (c, w', evs) ->
  store w = LoginPage.initial ->
  In (Some (After ms (Resolves (mkGw (Some session) None))))
     (map session_settled evs) ->
  (ms <? 5000)%N = true ->
  c = Done tt /\
  store w' = LoginPage.mkState true true false /\
  Guard.navigations evs
  = match truthy_opt returnUrl with
    | Some u =>
        match decode u with Resolves path => [path] | Rejects _ => [] end
    | None => ["/dashboard"]
    end.
Proof.
  intros Hrun Hw Hin Hms. revert Hrun Hin.
  destruct w as [st cache subs br t n]. cbn in Hw. subst st.
  unfold LoginPage.checkAuthentication, LoginPage.verify_session,
    LoginPage.show_form, LoginPage.session_timeout_ms,
    Auth.isLikelyAuthenticated, Auth.getSession, await, call, race,
    sync_reply, get, set.
  destruct (truthy_opt returnUrl) as [u |] eqn:Hu;
    [destruct (decode u) as [path | ex] eqn:Hd |].
  all: crush_run.
  all: intros [= <- <- <-] Hin; cbn in Hin; pin_observed.
  all: cbn in *; try congruence.
  all: repeat split.
Qed.

End LoginFormFacts.

Lemma handleSubmit_rejects_invalid_form_witness :
  let o := run Scenario.silent
               (LoginForm.handleSubmit Cases.decode Cases.needs_email None)
               (Cases.login_form "" "secret") in
  completion o = Done tt /\
  store (final o)
  = LoginForm.mkState (LoginForm.mkLoginData "" "secret")
                      [("email", "El email es requerido")] false /\
  forallb is_write (events o) = true.
Proof.
  apply (@handleSubmit_rejects_invalid_form Cases.decode Cases.needs_email
           None Scenario.silent (Cases.login_form "" "secret")
           [("email", "El email es requerido")]).
  reflexivity.
Defined.

Lemma handleSubmit_shows_error_or_navigates_witness :
  completion refused_login = Done tt /\
  LoginForm.isLoading (store (final refused_login)) = false /\
  ((Guard.navigations (events refused_login) = [] /\
    exists text,
      LoginForm.errors (store (final refused_login)) = [("form", text)] /\
      truthy text = true)
   \/
   (exists url, Guard.navigations (events refused_login) = [url]) /\
   LoginForm.errors (store (final refused_login)) = []).
Proof.
  apply (@handleSubmit_shows_error_or_navigates Cases.decode Cases.needs_email
           None Scenario.wrong_password (Cases.login_form "a@b.com" "wrong")
           (completion refused_login) (final refused_login)
           (events refused_login)).
  - reflexivity.
  - reflexivity.
  - reflexivity.
Defined.


Lemma handleForgotPassword_banner_witness :
  LoginForm.banner (store (final recovery_request))
  = LoginForm.Green "Se ha enviado un email de recuperación a a@b.com. Revisa tu bandeja de entrada.".
Proof.
  apply (proj2 (@handleForgotPassword_banner Cases.mail_sent
                  (Cases.login_form "a@b.com" ""))
               90%N (Resolves (mkGw (Some tt) None))).
  cbn. auto.
Defined.

Lemma mount_after_logout_skips_check_witness :
  let o := run Scenario.live_session
               (LoginForm.mount Cases.decode (Some "true") None)
               Cases.login_view in
  completion o = Done tt /\
  LoginPage.checkingAuth (store (final o)) = false /\
  forallb is_write (events o) = true.
Proof.
  apply (@mount_after_logout_skips_check Cases.decode None
           Scenario.live_session Cases.login_view).
  reflexivity.
Defined.

Lemma checkAuthentication_redirects_or_hangs_witness :
  completion visit_with_bad_return_url = Done tt /\
  store (final visit_with_bad_return_url) = LoginPage.mkState true true false /\
  Guard.navigations (events visit_with_bad_return_url) = [].
Proof.
  apply (@checkAuthentication_redirects_or_hangs Cases.decode (Some "%zz")
           Scenario.live_session Cases.login_view
           (completion visit_with_bad_return_url)
           (final visit_with_bad_return_url)
           (events visit_with_bad_return_url)
           35%N (mkSession Scenario.alice)).
  - reflexivity.
  - reflexivity.
  - cbn. do 3 right. left. reflexivity.
  - reflexivity.
Defined.

(* ------------------------------------------------------------------ *)
(** ** What the guards show, and the landing page *)

Section GuardViews.
Import Guard GuardView.

(** X28 (the hook-based [ProtectedRoute]): the guarded content is shown
    only to a user, and when a tenant is required only with a tenant and
    after the lookup; the guard stays exactly when it shows the content
    and the lookup left no error; it waits exactly when it shows the
    spinner. *)
Theorem hook_guard_content_is_protected authLoading user require
  redirectTo pathname (bc : HookState) :
  (hook_render authLoading user require bc = Content ->
   authLoading = false /\ user <> None /\
   (require = true ->
    isLoading bc = false /\ truthy_opt (businessId bc) <> None)) /\
  (hook_guard authLoading user require redirectTo pathname bc = Stay <->
   hook_render authLoading user require bc = Content /\
   (require = true -> truthy_opt (error bc) = None)) /\
  (hook_guard authLoading user require redirectTo pathname bc = Wait <->
   exists caption hint,
     hook_render authLoading user require bc = Loading caption hint).
Proof.
  unfold hook_render, hook_guard.
  destruct authLoading, user as [u |], require, bc as [b l e];
    cbn; try destruct l; cbn.
  all: try destruct (truthy_opt e) as [m |] eqn:He; cbn;
    try destruct (String.eqb m "TIMEOUT"); cbn;
    try destruct (truthy_opt b) as [tb |] eqn:Hb; cbn.
  all: repeat split; intros;
    repeat match goal with
           | H : _ /\ _ |- _ => destruct H
           | H : exists _, _ |- _ => destruct H
           | H : true = true -> _ |- _ => specialize (H eq_refl)
           end;
    try congruence; try discriminate; try (do 2 eexists; reflexivity).
Qed.

(** X29 (the promise-based [ProtectedRoute]): starting from its initial
    state, once the effect has run the guard shows the guarded content
    only to a user and without having navigated; when a tenant is
    required, only after the resolver answered with a non-empty tenant
    id. *)
Theorem promise_guard_content_is_protected env (w : World bool) user require
  redirectTo pathname c w' evs :
  run env (promise_guard false user require redirectTo pathname) w
  = (c, w', evs) ->
  store w = negb require ->
  promise_render false user require (store w') = Content ->
  user <> None /\
  navigations evs = [] /\
  (require = true ->
   exists b, In (Some (Resolves (Some b))) (map resolver_reply evs) /\
             truthy b = true).
Proof.
  revert c w' evs.
  unfold promise_guard, promise_render, await, call, sync_reply, set.
  destruct w as [st cache subs br t n]. cbn.
  destruct user as [u |], require; intros c w' evs.
  all: crush_run.
  all: intros [= <- <- <-] Hst; subst; cbn; try discriminate.
  all: intros _; repeat split; try discriminate.
  all: intros _.
  all: match goal with
       | H : truthy_opt ?x = Some _ |- _ =>
           destruct x as [b0 |]; cbn in H; [| discriminate H];
           destruct (truthy b0) eqn:Ht; [| discriminate H];
           exists b0; split; [left; reflexivity | exact Ht]
       end.
Qed.

End GuardViews.

Lemma promise_guard_content_is_protected_witness :
  Some Scenario.alice_identity <> None /\
  Guard.navigations (events guarded_visit) = [] /\
  (true = true ->
   exists b, In (Some (Resolves (Some b)))
                (map resolver_reply (events guarded_visit)) /\
             truthy b = true).
Proof.
  apply (@promise_guard_content_is_protected Cases.tenant_found
           Cases.guarded_page (Some Scenario.alice_identity) true
           "/login" "/citas" (completion guarded_visit) (final guarded_visit)
           (events guarded_visit)).
  - reflexivity.
  - reflexivity.
  - reflexivity.
Defined.

Section Landing.
Import HomePage.

(** X30 ([Home], the landing page): once the gateway has answered the
    session query the page redirects exactly once, to [/dashboard] when
    there is a session and to [/login] when there is none, whatever
    error came with the answer; when the query throws, the page throws
    too and redirects nowhere. *)
Theorem Home_redirects_exactly_once env (w : World unit) c w' evs ms r :
  run env Home w = (c, w', evs) ->
  In (Some (After ms r)) (map session_settled evs) ->
  match r with
  | Resolves g =>
      c = Raised (JsError "NEXT_REDIRECT") /\
      Guard.navigations evs
      = [if is_some (gw_data g) then "/dashboard" else "/login"]
  | Rejects ex => c = Raised ex /\ Guard.navigations evs = []
  end.
Proof.
  revert c w' evs. unfold Home, redirect, await, call, sync_reply.
  intros c w' evs. crush_run.
  all: intros [= <- <- <-] Hin; cbn in Hin; pin_observed.
  all: try match goal with
           | H : gw_data ?x = _, H' : is_some (gw_data ?x) = _ |- _ =>
               rewrite H in H'; try discriminate H'
           end.
  all: split; reflexivity.
Qed.

End Landing.

Lemma Home_redirects_exactly_once_witness :
  completion landing = Raised (JsError "NEXT_REDIRECT") /\
  Guard.navigations (events landing) = ["/dashboard"].
Proof.
  apply (@Home_redirects_exactly_once Scenario.live_session Cases.server
           (completion landing) (final landing) (events landing) 35%N
           (Resolves (mkGw (Some (mkSession Scenario.alice)) None))).
  - reflexivity.
  - cbn. auto.
Defined.
